(** * PaginatorSession (ext/paginator.py): a shallow embedding

    The session object of [ext/paginator.py] drives a chat message through a
    list of embeds.  Its methods are coroutines that talk to the chat
    transport and wait for user events.  They are embedded here as functions
    in a small state-and-exception monad:

    - the session object ([self]) and the world (the heap of Python list
      objects and the trace of requests made to the transport) are threaded
      explicitly;
    - a Python exception is the [Raise] outcome; [try]/[except] is [attempt];
    - everything the outside decides (whether a transport request fails,
      which reactions and messages arrive during a wait) is read from an
      environment [Env], indexed by the position of the request in the trace,
      so that every definition is an executable function. *)

From stdpp Require Import base gmap list strings pretty.

Open Scope string_scope.
Open Scope list_scope.
Open Scope Z_scope.

(** ** Python strings and integers *)

Module Py.

(** [needle in hay] on [str]: substring test. *)
Fixpoint str_in (needle hay : string) : bool :=
  String.prefix needle hay ||
  match hay with
  | EmptyString => false
  | String _ hay' => str_in needle hay'
  end.

(** [x in xs] on a sequence of strings (the key view of a dict). *)
Definition key_in (x : string) (xs : list string) : bool :=
  bool_decide (x ∈ xs).

(** A [str] is a sequence of characters (code points); a text is kept here
    as its UTF-8 bytes.  [chars] reads the characters back; [None] for bytes
    that are no UTF-8, which no [str] has. *)
Definition continuation (b : N) : option N :=
  if ((128 <=? b) && (b <=? 191))%N then Some (b - 128)%N else None.

Definition scalar (least c : N) : option N :=
  if ((least <=? c) && (c <=? 1114111) && negb ((55296 <=? c) && (c <=? 57343)))%N
  then Some c else None.

Fixpoint decode (bs : list N) : option (list N) :=
  match bs with
  | [] => Some []
  | b0 :: r0 =>
      if (b0 <? 128)%N then
        match decode r0 with Some cs => Some (b0 :: cs) | None => None end
      else if ((192 <=? b0) && (b0 <? 224))%N then
        match r0 with
        | b1 :: r1 =>
            match continuation b1 with
            | Some c1 =>
                match scalar 128 ((b0 - 192) * 64 + c1)%N, decode r1 with
                | Some c, Some cs => Some (c :: cs)
                | _, _ => None
                end
            | None => None
            end
        | _ => None
        end
      else if ((224 <=? b0) && (b0 <? 240))%N then
        match r0 with
        | b1 :: b2 :: r2 =>
            match continuation b1, continuation b2 with
            | Some c1, Some c2 =>
                match scalar 2048 (((b0 - 224) * 64 + c1) * 64 + c2)%N, decode r2 with
                | Some c, Some cs => Some (c :: cs)
                | _, _ => None
                end
            | _, _ => None
            end
        | _ => None
        end
      else if ((240 <=? b0) && (b0 <? 248))%N then
        match r0 with
        | b1 :: b2 :: b3 :: r3 =>
            match continuation b1, continuation b2, continuation b3 with
            | Some c1, Some c2, Some c3 =>
                match scalar 65536 ((((b0 - 240) * 64 + c1) * 64 + c2) * 64 + c3)%N,
                      decode r3 with
                | Some c, Some cs => Some (c :: cs)
                | _, _ => None
                end
            | _, _, _ => None
            end
        | _ => None
        end
      else None
  end.

Definition chars (s : string) : option (list N) :=
  decode (Ascii.N_of_ascii <$> String.list_ascii_of_string s).

(** The numeric type of a character in the Unicode database, with its digit
    value: [Decimal] for a decimal digit of some script, [Digit] for a digit
    that is not one (a superscript, a circled digit). *)
Inductive numeric :=
| Decimal (v : Z)
| Digit (v : Z).

(** The database outside ASCII is not part of this program: it is taken as
    given.  Inside ASCII the digits are [0]-[9], all decimal. *)
Definition Unicode : Type := N -> option numeric.

Definition numeric_type (u : Unicode) (c : N) : option numeric :=
  if ((48 <=? c) && (c <=? 57))%N then Some (Decimal (Z.of_N c - 48))
  else if (c <? 128)%N then None
  else u c.

(** [str.isdigit()]: true iff the text is not empty and every character has
    numeric type [Digit] or [Decimal]. *)
Definition isdigit (u : Unicode) (s : string) : bool :=
  match chars s with
  | Some (c :: cs) =>
      forallb (fun c => bool_decide (is_Some (numeric_type u c))) (c :: cs)
  | _ => false
  end.

Fixpoint int_go (u : Unicode) (acc : Z) (cs : list N) : option Z :=
  match cs with
  | [] => Some acc
  | c :: cs' =>
      match numeric_type u c with
      | Some (Decimal d) => int_go u (10 * acc + d) cs'
      | _ => None
      end
  end.

(** [int(s)] on a text of digit characters, which is what [message_check]
    lets through; [None] is [ValueError].  Decimal digits of any script are
    read by their value; a digit that is not decimal is refused.  (The
    limit on the number of digits of recent interpreters lies above the
    length of a chat message and is left out.) *)
Definition int (u : Unicode) (s : string) : option Z :=
  match chars s with
  | Some (c :: cs) => int_go u 0 (c :: cs)
  | _ => None
  end.

(** [str(n)] / [f'{n}'] for an integer. *)
Definition str (n : Z) : string := pretty n.

End Py.

(** ** The data of the chat library the session touches *)

(** [discord.Embed], by value: the fields the session reads or writes.
    [set_footer] replaces the whole footer.  A page list holds embed values;
    one embed object stored at two positions is not told apart from two
    equal embeds. *)
Record Footer := mkFooter {
  footer_text : option string;
  footer_icon_url : option string
}.

Record Embed := mkEmbed {
  embed_title : option string;
  embed_description : option string;
  embed_color : option Z;
  embed_fields : list (string * string);
  embed_footer : option Footer
}.

Definition new_embed (color : Z) : Embed :=
  mkEmbed None None (Some color) [] None.

Definition set_title (t : string) (e : Embed) : Embed :=
  mkEmbed (Some t) (embed_description e) (embed_color e) (embed_fields e) (embed_footer e).

Definition set_description (d : string) (e : Embed) : Embed :=
  mkEmbed (embed_title e) (Some d) (embed_color e) (embed_fields e) (embed_footer e).

Definition add_field (name value : string) (e : Embed) : Embed :=
  mkEmbed (embed_title e) (embed_description e) (embed_color e)
          (embed_fields e ++ [(name, value)]) (embed_footer e).

Definition set_footer (txt : string) (e : Embed) : Embed :=
  mkEmbed (embed_title e) (embed_description e) (embed_color e) (embed_fields e)
          (Some (mkFooter (Some txt) None)).

(** What a caller can hand to [add_page]: an embed or some other object. *)
Inductive PyVal :=
| VEmbed (e : Embed)
| VNone
| VInt (n : Z)
| VStr (s : string).

Definition user_id := nat.
Definition channel_id := nat.
Definition message_id := nat.

(** The argument of [ctx.send]: a text, or [embed=page]. *)
Inductive Content :=
| CText (s : string)
| CEmbed (e : Embed).

(** A message handle: what the session reads of a [discord.Message]. *)
Record Message := mkMessage {
  msg_id : message_id;
  msg_author : user_id;
  msg_channel : channel_id;
  msg_content : string
}.

Record Reaction := mkReaction {
  reaction_emoji : string;
  reaction_message : message_id
}.

(** [ctx]: the invoking user, the channel and the bot's own identity. *)
Record Context := mkContext {
  ctx_author : user_id;
  ctx_channel : channel_id;
  ctx_me : user_id
}.

#[global] Instance Footer_eq_dec : EqDecision Footer.
Proof. solve_decision. Defined.
#[global] Instance Embed_eq_dec : EqDecision Embed.
Proof. solve_decision. Defined.
#[global] Instance Content_eq_dec : EqDecision Content.
Proof. solve_decision. Defined.
#[global] Instance Message_eq_dec : EqDecision Message.
Proof. solve_decision. Defined.

(** ** Exceptions, requests, the environment and the world *)

Inductive Exn :=
| TypeError (msg : string)
| TimeoutError
| HTTPException
| AttributeError
| ValueError
| IndexError.

#[global] Instance Exn_eq_dec : EqDecision Exn.
Proof. solve_decision. Defined.

(** One entry of the trace: a request made to the chat transport or to the
    event loop.  A request is recorded whether or not it then fails. *)
Inductive Request :=
| Send (c : Content)
| Edit (m : Message) (e : Embed)
| AddReaction (m : Message) (emoji : string)
| RemoveReaction (m : Message) (emoji : string) (u : user_id)
| ClearReactions (m : Message)
| Delete (m : Message)
| DeleteMessages (ms : list Message)
| Sleep (secs : Z)
| WaitReaction (timeout : Z)
| WaitMessage (timeout : Z).

#[global] Instance Request_eq_dec : EqDecision Request.
Proof. solve_decision. Defined.

(** What the outside decides.  The index is the position of the request in
    the trace: [fails n] says that the [n]-th request raises, [reactions n]
    and [messages n] list the events that arrive, in order, before the wait
    recorded at position [n] times out.  [unicode] is the character database
    of the interpreter the session runs on. *)
Record Env := mkEnv {
  fails : nat -> bool;
  reactions : nat -> list (Reaction * user_id);
  messages : nat -> list Message;
  unicode : Py.Unicode
}.

Definition loc := nat.

(** The heap of Python list objects (page lists are shared by reference) and
    the trace of requests, oldest first. *)
Record World := mkWorld {
  lists : gmap loc (list Embed);
  trace : list Request
}.

(** The values of [reaction_map]: the bound methods of the session. *)
Inductive Callback :=
| cb_first_page
| cb_previous_page
| cb_close
| cb_next_page
| cb_last_page
| cb_ask_for_page
| cb_show_help_page.

(** The attributes of a session.  [paginating] does not exist until the
    timeout handler of [run] assigns it. *)
Record PaginatorSession := mkSession {
  ctx : Context;
  timeout : Z;
  pages : loc;
  running : bool;
  base : option Message;
  current : Z;
  reaction_map : list (string * Callback);
  help_color : Z;
  page_num_enabled : bool;
  paginating : option bool
}.

Definition set_running (b : bool) (s : PaginatorSession) : PaginatorSession :=
  mkSession (ctx s) (timeout s) (pages s) b (base s) (current s)
            (reaction_map s) (help_color s) (page_num_enabled s) (paginating s).

Definition set_base (m : Message) (s : PaginatorSession) : PaginatorSession :=
  mkSession (ctx s) (timeout s) (pages s) (running s) (Some m) (current s)
            (reaction_map s) (help_color s) (page_num_enabled s) (paginating s).

Definition set_current (i : Z) (s : PaginatorSession) : PaginatorSession :=
  mkSession (ctx s) (timeout s) (pages s) (running s) (base s) i
            (reaction_map s) (help_color s) (page_num_enabled s) (paginating s).

Definition set_paginating (b : bool) (s : PaginatorSession) : PaginatorSession :=
  mkSession (ctx s) (timeout s) (pages s) (running s) (base s) (current s)
            (reaction_map s) (help_color s) (page_num_enabled s) (Some b).

(** ** The monad of session methods *)

Inductive Res (A : Type) :=
| Ok (a : A)
| Raise (e : Exn)
| OutOfFuel.
Arguments Ok {A} a.
Arguments Raise {A} e.
Arguments OutOfFuel {A}.

Definition M (A : Type) : Type :=
  PaginatorSession -> World -> Res A * PaginatorSession * World.

Definition ret {A} (a : A) : M A := fun s w => (Ok a, s, w).

Definition bind {A B} (m : M A) (k : A -> M B) : M B :=
  fun s w =>
    match m s w with
    | (Ok a, s', w') => k a s' w'
    | (Raise e, s', w') => (Raise e, s', w')
    | (OutOfFuel, s', w') => (OutOfFuel, s', w')
    end.

Definition raise {A} (e : Exn) : M A := fun s w => (Raise e, s, w).

Definition out_of_fuel {A} : M A := fun s w => (OutOfFuel, s, w).

(** [try: m] with the outcome handed to the continuation: [inl e] when [m]
    raised [e], [inr a] when it returned [a]. *)
Definition attempt {A} (m : M A) : M (Exn + A) :=
  fun s w =>
    match m s w with
    | (Ok a, s', w') => (Ok (inr a), s', w')
    | (Raise e, s', w') => (Ok (inl e), s', w')
    | (OutOfFuel, s', w') => (OutOfFuel, s', w')
    end.

Definition get_self : M PaginatorSession := fun s w => (Ok s, s, w).
Definition modify_self (f : PaginatorSession -> PaginatorSession) : M unit :=
  fun s w => (Ok tt, f s, w).
Definition get_world : M World := fun s w => (Ok w, s, w).

Declare Scope session_scope.
Delimit Scope session_scope with session.
Notation "x <- m ;; k" := (bind m (fun x => k))
  (at level 100, m at next level, right associativity) : session_scope.
Notation "m ;;; k" := (bind m (fun _ => k))
  (at level 100, right associativity) : session_scope.
Open Scope session_scope.

(** ** The session's methods *)

Definition LF : string := String (Ascii.ascii_of_nat 10) EmptyString.

(** [self.pages]: the list object the attribute points to. *)
Definition pages_of (s : PaginatorSession) (w : World) : list Embed :=
  lists w !!! pages s.

(** [len(self.pages)] *)
Definition len_pages (s : PaginatorSession) (w : World) : Z :=
  Z.of_nat (length (pages_of s w)).

(** The list object built once for the default [pages=[]], when the [def]
    statement of [__init__] runs; [module_loaded] is the world after that. *)
Definition default_pages : loc := 0%nat.

Definition module_loaded : World := mkWorld {[ default_pages := [] ]} [].

(** The caller building a list to pass as [pages=...]. *)
Definition new_list (l : loc) (es : list Embed) (w : World) : World :=
  mkWorld (<[ l := es ]> (lists w)) (trace w).

(** The [OrderedDict] of [reaction_map], in insertion order. *)
Definition controls : list (string * Callback) :=
  [ ("⏮", cb_first_page);
    ("◀", cb_previous_page);
    ("⏹", cb_close);
    ("▶", cb_next_page);
    ("⏭", cb_last_page);
    ("🔢", cb_ask_for_page);
    ("🤔", cb_show_help_page) ].

(** [__init__(self, ctx, timeout=60, *, pages=[], page_nums=True,
    help_color=0x00FFFF)]; [None] for an argument the caller leaves out. *)
Definition __init__ (ctx : Context) (timeout : option Z) (pages : option loc)
    (page_nums : option bool) (help_color : option Z) : PaginatorSession :=
  mkSession ctx
            (default 60 timeout)
            (default default_pages pages)
            false
            None
            0
            controls
            (default 65535 help_color)
            (default true page_nums)
            None.

Definition add_page (embed : PyVal) : M unit :=
  match embed with
  | VEmbed e =>
      fun s w =>
        (Ok tt, s, mkWorld (<[ pages s := pages_of s w ++ [e] ]> (lists w)) (trace w))
  | _ => raise (TypeError "Page must be an Embed object.")
  end.

Definition valid_page (s : PaginatorSession) (w : World) (index : Z) : bool :=
  if (index <? 0) || (index + 1 >? len_pages s w) then false else true.

(** [self.pages[index]] *)
Definition getitem (l : list Embed) (index : Z) : M Embed :=
  let i := if index <? 0 then index + Z.of_nat (length l) else index in
  if i <? 0 then raise IndexError
  else match l !! Z.to_nat i with
       | Some e => ret e
       | None => raise IndexError
       end.

(** [self.base.<method>]: attribute access on [None] raises. *)
Definition get_base : M Message :=
  s <- get_self;;
  match base s with
  | Some m => ret m
  | None => raise AttributeError
  end.

(** [for x in xs: body(x)] *)
Fixpoint for_each {A} (xs : list A) (body : A -> M unit) : M unit :=
  match xs with
  | [] => ret tt
  | x :: xs' => body x;;; for_each xs' body
  end.

Definition keys (d : list (string * Callback)) : list string := d.*1.

(** [d.get(k)] on the ordered dict. *)
Fixpoint dict_get (d : list (string * Callback)) (k : string) : option Callback :=
  match d with
  | [] => None
  | (k', v) :: d' => if String.eqb k' k then Some v else dict_get d' k
  end.

(** The first event of the window the check accepts, [TimeoutError] when
    there is none; an exception raised by the check is raised by the wait. *)
Fixpoint wait_scan {E} (check : E -> Exn + bool) (evs : list E) : Exn + E :=
  match evs with
  | [] => inl TimeoutError
  | ev :: evs' =>
      match check ev with
      | inl e => inl e
      | inr true => inr ev
      | inr false => wait_scan check evs'
      end
  end.

Section Methods.

Variable env : Env.

(** A request to the transport: recorded, then it fails or not. *)
Definition request (r : Request) : M nat :=
  fun s w =>
    let n := length (trace w) in
    let w' := mkWorld (lists w) (trace w ++ [r]) in
    if fails env n then (Raise HTTPException, s, w') else (Ok n, s, w').

(** [await self.ctx.send(...)]: the new message, posted by the bot. *)
Definition ctx_send (c : Content) : M Message :=
  n <- request (Send c);;
  s <- get_self;;
  ret (mkMessage n (ctx_me (ctx s)) (ctx_channel (ctx s))
         (match c with CText t => t | CEmbed _ => "" end)).

(** [await asyncio.sleep(secs)] *)
Definition sleep (secs : Z) : M unit :=
  fun s w => (Ok tt, s, mkWorld (lists w) (trace w ++ [Sleep secs])).

(** [await self.ctx.bot.wait_for('reaction_add', check=..., timeout=...)] *)
Definition wait_for_reaction (check : Reaction * user_id -> Exn + bool)
    (timeout : Z) : M (Reaction * user_id) :=
  fun s w =>
    let n := length (trace w) in
    let w' := mkWorld (lists w) (trace w ++ [WaitReaction timeout]) in
    match wait_scan check (reactions env n) with
    | inl e => (Raise e, s, w')
    | inr ev => (Ok ev, s, w')
    end.

(** [await self.ctx.bot.wait_for('message', check=..., timeout=...)] *)
Definition wait_for_message (check : Message -> Exn + bool)
    (timeout : Z) : M Message :=
  fun s w =>
    let n := length (trace w) in
    let w' := mkWorld (lists w) (trace w ++ [WaitMessage timeout]) in
    match wait_scan check (messages env n) with
    | inl e => (Raise e, s, w')
    | inr m => (Ok m, s, w')
    end.

(** [page.set_footer(text=fmt)] on the page at [index] of [self.pages]. *)
Definition stamp_footer (index : Z) (fmt : string) : M Embed :=
  fun s w =>
    match pages_of s w !! Z.to_nat index with
    | Some page =>
        let page' := set_footer fmt page in
        (Ok page', s,
         mkWorld (<[ pages s := <[ Z.to_nat index := page' ]> (pages_of s w) ]> (lists w))
                 (trace w))
    | None => (Raise IndexError, s, w)
    end.

(** The body of the [for reaction in self.reaction_map.keys()] loop of
    [show_page]. *)
Definition attach_reaction (reaction : string) : M unit :=
  s <- get_self;;
  w <- get_world;;
  if (len_pages s w =? 2) && Py.str_in reaction "⏮⏭" then ret tt
  else
    b <- get_base;;
    request (AddReaction b reaction);;;
    ret tt.

Definition show_page (index : Z) : M unit :=
  s <- get_self;;
  w <- get_world;;
  if negb (valid_page s w index) then ret tt
  else
    modify_self (set_current index);;;
    page <- getitem (pages_of s w) index;;
    page <- (if page_num_enabled s
             then stamp_footer index
                    ("Page " +:+ Py.str (index + 1) +:+ "/" +:+ Py.str (len_pages s w))
             else ret page);;
    if running s then
      b <- get_base;;
      request (Edit b page);;;
      ret tt
    else
      modify_self (set_running true);;;
      m <- ctx_send (CEmbed page);;
      modify_self (set_base m);;;
      for_each (keys (reaction_map s)) attach_reaction.

(** [react_check] returns [True], [False] or falls off its end ([None],
    which the wait treats as a rejection). *)
Definition react_check (s : PaginatorSession) (ev : Reaction * user_id) : Exn + bool :=
  let '(reaction, user) := ev in
  if negb (user =? ctx_author (ctx s))%nat then inr false
  else
    match base s with
    | None => inl AttributeError
    | Some b =>
        if negb (reaction_message reaction =? msg_id b)%nat then inr false
        else if Py.key_in (reaction_emoji reaction) (keys (reaction_map s)) then inr true
        else inr false
    end.

Definition message_check (s : PaginatorSession) (m : Message) : Exn + bool :=
  inr ((msg_author m =? ctx_author (ctx s))%nat &&
       (ctx_channel (ctx s) =? msg_channel m)%nat &&
       Py.isdigit (unicode env) (msg_content m)).

(** A coroutine object: the work is done when it is awaited. *)
Definition Awaitable : Type := M unit.

Definition previous_page : M Awaitable :=
  s <- get_self;;
  ret (show_page (current s - 1)).

Definition next_page : M Awaitable :=
  s <- get_self;;
  ret (show_page (current s + 1)).

Definition first_page : M Awaitable :=
  ret (show_page 0).

Definition last_page : M Awaitable :=
  s <- get_self;;
  w <- get_world;;
  ret (show_page (len_pages s w - 1)).

(** [inspect.getdoc(callback)] *)
Definition getdoc (cb : Callback) : string :=
  match cb with
  | cb_first_page => "Go to immediately to the first page"
  | cb_previous_page => "Go to the previous page."
  | cb_close => "Delete this embed."
  | cb_next_page => "Go to the next page"
  | cb_last_page => "Go to immediately to the last page"
  | cb_ask_for_page => "Type in the page number."
  | cb_show_help_page => "Shows this page."
  end.

Definition help_text (d : list (string * Callback)) : string :=
  fold_left (fun help '(reaction, callback) =>
               help +:+ reaction +:+ " - " +:+ getdoc callback +:+ LF) d "".

Definition show_help_page : M unit :=
  s <- get_self;;
  w <- get_world;;
  let em := new_embed (help_color s) in
  let em := set_title "Pagination Session - Help" em in
  let em := set_description "React with each of the following reactions to navigate." em in
  let em := add_field "Reactions?" (help_text (reaction_map s)) em in
  let em := if page_num_enabled s
            then set_footer ("Page " +:+ Py.str (current s + 1) +:+ "/" +:+
                             Py.str (len_pages s w)) em
            else em in
  b <- get_base;;
  request (Edit b em);;;
  ret tt.

(** [close] is a plain function: it clears [running] at once and, with
    [delete], returns the coroutine of [self.base.delete()]; otherwise it
    returns [None]. *)
Definition close (delete : bool) : M (option Awaitable) :=
  modify_self (set_running false);;;
  if delete then
    b <- get_base;;
    ret (Some (request (Delete b);;; ret tt))
  else ret None.

(** [await x] *)
Definition await (x : option Awaitable) : M unit :=
  match x with
  | Some co => co
  | None => raise (TypeError "object NoneType can't be used in 'await' expression")
  end.

Definition py_int (s : string) : M Z :=
  match Py.int (unicode env) s with
  | Some n => ret n
  | None => raise ValueError
  end.

Definition ask_for_page : M unit :=
  x <- ctx_send (CText "What page do you want to go to?");;
  let to_delete := [x] in
  s <- get_self;;
  r <- attempt (wait_for_message (message_check s) 30);;
  to_delete <-
    match r with
    | inl TimeoutError =>
        x <- ctx_send (CText "Took too long.");;
        ret (to_delete ++ [x])
    | inl e => raise e
    | inr msg =>
        page <- py_int (msg_content msg);;
        let to_delete := to_delete ++ [msg] in
        s <- get_self;;
        w <- get_world;;
        if negb (page =? 0) && (page <=? len_pages s w) then
          show_page (page - 1);;;
          ret to_delete
        else
          x <- ctx_send (CText ("Invalid page given. (" +:+ Py.str page +:+ "/" +:+
                                Py.str (len_pages s w) +:+ ")"));;
          ret (to_delete ++ [x])
    end;;
  _ <- attempt (sleep 5;;; request (DeleteMessages to_delete));;
  ret tt.

(** Calling a value of [reaction_map] with no argument, as [run] does. *)
Definition call (cb : option Callback) : M (option Awaitable) :=
  match cb with
  | Some cb_first_page => co <- first_page;; ret (Some co)
  | Some cb_previous_page => co <- previous_page;; ret (Some co)
  | Some cb_close => close true
  | Some cb_next_page => co <- next_page;; ret (Some co)
  | Some cb_last_page => co <- last_page;; ret (Some co)
  | Some cb_ask_for_page => ret (Some ask_for_page)
  | Some cb_show_help_page => ret (Some show_help_page)
  | None => raise (TypeError "'NoneType' object is not callable")
  end.

(** The [while self.running] loop of [run]; one unit of fuel per turn. *)
Fixpoint run_loop (fuel : nat) : M unit :=
  s <- get_self;;
  if running s then
    match fuel with
    | O => out_of_fuel
    | S fuel' =>
        r <- attempt (wait_for_reaction (react_check s) (timeout s));;
        match r with
        | inl TimeoutError =>
            modify_self (set_paginating false);;;
            _ <- attempt (b <- get_base;; request (ClearReactions b));;
            ret tt
        | inl e => raise e
        | inr (reaction, user) =>
            _ <- attempt (b <- get_base;;
                          request (RemoveReaction b (reaction_emoji reaction) user));;
            s <- get_self;;
            co <- call (dict_get (reaction_map s) (reaction_emoji reaction));;
            await co;;;
            run_loop fuel'
        end
    end
  else ret tt.

Definition run (fuel : nat) : M unit :=
  s <- get_self;;
  (if negb (running s) then show_page 0 else ret tt);;;
  run_loop fuel.

End Methods.

(** ** Observations used in the statements *)

(** The world with more requests recorded. *)
Definition extend (w : World) (t : list Request) : World :=
  mkWorld (lists w) (trace w ++ t).

(** The footer line [show_page] writes for index [i]. *)
Definition page_footer (s : PaginatorSession) (w : World) (i : Z) : string :=
  "Page " +:+ Py.str (i + 1) +:+ "/" +:+ Py.str (len_pages s w).

(** The page at index [i] as [show_page] displays it, and the heap after
    the footer was written into the list. *)
Definition rendered (s : PaginatorSession) (w : World) (i : Z) (p : Embed) : Embed :=
  if page_num_enabled s then set_footer (page_footer s w i) p else p.

Definition lists_rendered (s : PaginatorSession) (w : World) (i : Z) (p : Embed)
    : gmap loc (list Embed) :=
  if page_num_enabled s
  then <[ pages s := <[ Z.to_nat i := rendered s w i p ]> (pages_of s w) ]> (lists w)
  else lists w.

(** The message [ctx.send] returns when it is the next request. *)
Definition sent_message (s : PaginatorSession) (w : World) (text : string) : Message :=
  mkMessage (length (trace w)) (ctx_me (ctx s)) (ctx_channel (ctx s)) text.

(** The glyphs of [ks] the first render attaches when there are [n] pages. *)
Definition glyphs_attached (n : Z) (ks : list string) : list string :=
  filter (fun g => negb ((n =? 2) && Py.str_in g "⏮⏭") = true) ks.

(** The embed a request puts on display, if it does. *)
Definition shows (r : Request) : option Embed :=
  match r with
  | Send (CEmbed e) => Some e
  | Edit _ e => Some e
  | _ => None
  end.

(** The embed the transport was last asked to display. *)
Definition displayed (t : list Request) : option Embed :=
  last (omap shows t).

(** How many times the deletion of message [m] was requested. *)
Definition delete_requests (m : Message) (t : list Request) : nat :=
  length (filter (fun r => r = Delete m) t).

(** The four navigation actions, called and awaited as [run] does. *)
Inductive Nav := NavPrevious | NavNext | NavFirst | NavLast.

Definition nav (env : Env) (a : Nav) : M unit :=
  co <- match a with
        | NavPrevious => previous_page env
        | NavNext => next_page env
        | NavFirst => first_page env
        | NavLast => last_page env
        end;;
  co.

(** A sequence of navigation actions; the session and the world after it,
    whatever each action returned or raised. *)
Fixpoint navigate (env : Env) (acts : list Nav) (s : PaginatorSession) (w : World)
    : PaginatorSession * World :=
  match acts with
  | [] => (s, w)
  | a :: acts' =>
      let '(_, s', w') := nav env a s w in
      navigate env acts' s' w'
  end.

(** The prompt of the page-jump dialog. *)
Definition prompt_text : string := "What page do you want to go to?".

(** No event in the window passes the check. *)
Definition none_accepted {E} (check : E -> Exn + bool) (evs : list E) : Prop :=
  Forall (fun ev => check ev = inr false) evs.

(** The cursor a navigation action aims at, from cursor [c] in a list of
    [n] pages: one step, stopping at either end, or a jump to an end. *)
Definition nav_cursor (a : Nav) (c n : Z) : Z :=
  match a with
  | NavPrevious => Z.max 0 (c - 1)
  | NavNext => Z.min (n - 1) (c + 1)
  | NavFirst => 0
  | NavLast => n - 1
  end.

(** One line of the help page. *)
Definition help_line (entry : string * Callback) : string :=
  entry.1 +:+ " - " +:+ getdoc entry.2 +:+ LF.

(** The embed [show_help_page] builds. *)
Definition help_embed (s : PaginatorSession) (w : World) : Embed :=
  mkEmbed (Some "Pagination Session - Help")
          (Some "React with each of the following reactions to navigate.")
          (Some (help_color s))
          [("Reactions?", help_text (reaction_map s))]
          (if page_num_enabled s
           then Some (mkFooter (Some (page_footer s w (current s))) None)
           else None).

(** Requests that post a page as a new message, and requests that edit a
    message other than [b]. *)
Definition is_page_send (r : Request) : bool :=
  match r with
  | Send (CEmbed _) => true
  | _ => false
  end.

Definition is_foreign_edit (b : Message) (r : Request) : bool :=
  match r with
  | Edit m _ => negb (bool_decide (m = b))
  | _ => false
  end.

Definition page_sends (t : list Request) : nat :=
  length (filter (fun r => is_page_send r = true) t).

Definition foreign_edits (b : Message) (t : list Request) : nat :=
  length (filter (fun r => is_foreign_edit b r = true) t).

(** What the loop of [run] keeps: the displayed message, the page list and
    its length, a cursor inside it, and the number of page messages posted
    and of edits made elsewhere than on the displayed message. *)
Definition loop_inv (b : Message) (p : loc) (n : Z) (j k : nat)
    (s : PaginatorSession) (w : World) : Prop :=
  base s = Some b
  /\ pages s = p
  /\ len_pages s w = n
  /\ 0 <= current s < n
  /\ page_sends (trace w) = j
  /\ foreign_edits b (trace w) = k.

(** The same while the loop goes on. *)
Definition running_inv (b : Message) (p : loc) (n : Z) (j k : nat)
    (s : PaginatorSession) (w : World) : Prop :=
  loop_inv b p n j k s w /\ running s = true.

(** The exceptions a method lets through, at most. *)
Definition only_raises {A} (E : Exn -> Prop) (r : Res A) : Prop :=
  match r with
  | Raise e => E e
  | _ => True
  end.

Definition transport_error (e : Exn) : Prop := e = HTTPException.

Definition transport_or_parse_error (e : Exn) : Prop :=
  e = HTTPException \/ e = ValueError.

(** [m] keeps [I], raises only what [E] allows, and returns only what [V]
    allows. *)
Definition keeps {A} (I : PaginatorSession -> World -> Prop) (E : Exn -> Prop)
    (m : M A) (V : A -> Prop) : Prop :=
  forall s w, I s w ->
    I (m s w).1.2 (m s w).2
    /\ match (m s w).1.1 with
       | Ok a => V a
       | Raise e => E e
       | OutOfFuel => True
       end.

(** ** Sample data *)

Module Sample.

Definition page (t : string) : Embed := mkEmbed (Some t) None None [] None.

Definition invoker : Context := mkContext 7%nat 3%nat 1%nat.

(** The entries of the Unicode database the samples meet: the superscript
    digits of Latin-1 (digits, not decimal), the Arabic-Indic and the
    fullwidth digits (decimal). *)
Definition ucd : Py.Unicode := fun c =>
  if (c =? 178)%N then Some (Py.Digit 2)
  else if (c =? 179)%N then Some (Py.Digit 3)
  else if (c =? 185)%N then Some (Py.Digit 1)
  else if ((1632 <=? c) && (c <=? 1641))%N then Some (Py.Decimal (Z.of_N c - 1632))
  else if ((65296 <=? c) && (c <=? 65305))%N then Some (Py.Decimal (Z.of_N c - 65296))
  else None.

(** A transport that never fails and a user who never reacts or writes. *)
Definition quiet : Env := mkEnv (fun _ => false) (fun _ => []) (fun _ => []) ucd.

Definition abc : loc := 1%nat.

Definition three_pages : World :=
  new_list abc [page "A"; page "B"; page "C"] module_loaded.

Definition two_pages : World :=
  new_list abc [page "A"; page "B"] module_loaded.

(** [PaginatorSession(ctx, pages=abc)] *)
Definition session : PaginatorSession :=
  __init__ invoker None (Some abc) None None.

(** The session and the world once page 0 is on display. *)
Definition shown : PaginatorSession := (show_page quiet 0 session three_pages).1.2.
Definition shown_world : World := (show_page quiet 0 session three_pages).2.

(** A silent user and a transport whose [n]-th request fails. *)
Definition failing (n : nat) : Env :=
  mkEnv (fun k => (k =? n)%nat) (fun _ => []) (fun _ => []) ucd.

(** A session over a list with no page in it. *)
Definition no_pages : World := new_list abc [] module_loaded.

(** A second list object and a session over it. *)
Definition xyz : loc := 2%nat.

Definition other_session : PaginatorSession :=
  __init__ invoker None (Some xyz) None None.

(** The invoking user reacts with [glyph] to the message with id [m]
    during the wait recorded at position [n]; nobody does anything else. *)
Definition reacts (n : nat) (glyph : string) (m : message_id) : Env :=
  mkEnv (fun _ => false)
        (fun k => if (k =? n)%nat then [(mkReaction glyph m, 7%nat)] else [])
        (fun _ => []) ucd.

(** The invoking user reacts with the page-jump glyph during the first
    wait of a run that starts at an empty trace, and answers the prompt
    with [text]. *)
Definition jumps_with (text : string) : Env :=
  mkEnv (fun _ => false)
        (fun k => if (k =? 8)%nat then [(mkReaction "🔢" 0%nat, 7%nat)] else [])
        (fun k => if (k =? 11)%nat then [mkMessage 50%nat 7%nat 3%nat text] else [])
        ucd.

(** The reply of the invoking user to the page prompt. *)
Definition reply (text : string) : Message := mkMessage 50%nat 7%nat 3%nat text.

(** The user answers the prompt recorded at position [n] with [text]. *)
Definition answers (n : nat) (text : string) : Env :=
  mkEnv (fun _ => false) (fun _ => [])
        (fun k => if (k =? S n)%nat then [reply text] else []) ucd.

End Sample.

(** * Proofs *)

(** Unfolds the plumbing of the monad, and nothing of the data. *)
Ltac unfold_m :=
  cbv beta iota zeta delta
    [bind ret raise attempt get_self get_world modify_self get_base request
     ctx_send sleep wait_for_reaction wait_for_message await py_int].

(** ** Basic facts *)

Lemma extend_nil w : extend w [] = w.
Proof. destruct w. unfold extend. simpl. by rewrite app_nil_r. Qed.

Lemma extend_extend w t1 t2 : extend (extend w t1) t2 = extend w (t1 ++ t2).
Proof. unfold extend. simpl. by rewrite app_assoc. Qed.

Lemma valid_page_spec s w i :
  valid_page s w i = true <-> 0 <= i < len_pages s w.
Proof.
  unfold valid_page.
  destruct (i <? 0) eqn:H1; destruct (i + 1 >? len_pages s w) eqn:H2; simpl;
    split; intros; try discriminate; try lia.
Qed.

Lemma valid_page_false s w i :
  valid_page s w i = false <-> i < 0 \/ len_pages s w <= i.
Proof.
  unfold valid_page.
  destruct (i <? 0) eqn:H1; destruct (i + 1 >? len_pages s w) eqn:H2; simpl;
    split; intros; try discriminate; try lia; auto.
Qed.

Lemma valid_page_lookup s w i :
  valid_page s w i = true -> exists p, pages_of s w !! Z.to_nat i = Some p.
Proof.
  intros H%valid_page_spec. unfold len_pages in H.
  apply lookup_lt_is_Some_2. lia.
Qed.

Lemma wait_scan_none {E} (check : E -> Exn + bool) evs :
  none_accepted check evs -> wait_scan check evs = inl TimeoutError.
Proof.
  induction 1 as [|ev evs Hev _ IH]; [reflexivity|].
  cbn [wait_scan]. by rewrite Hev.
Qed.

Lemma show_page_invalid env s w i :
  valid_page s w i = false -> show_page env i s w = (Ok tt, s, w).
Proof.
  intros H. unfold show_page. unfold_m. rewrite H. reflexivity.
Qed.

(** ** The reaction loop of the first render *)

Lemma attach_reaction_eq env k s w :
  attach_reaction env k s w =
  if (len_pages s w =? 2) && Py.str_in k "⏮⏭" then (Ok tt, s, w)
  else match base s with
       | None => (Raise AttributeError, s, w)
       | Some b =>
           (if fails env (length (trace w)) then Raise HTTPException else Ok tt,
            s, extend w [AddReaction b k])
       end.
Proof.
  unfold attach_reaction. unfold_m.
  destruct ((len_pages s w =? 2) && Py.str_in k "⏮⏭"); [reflexivity|].
  destruct (base s); [|reflexivity].
  destruct (fails env (length (trace w))); reflexivity.
Qed.

Lemma attach_loop env ks : forall s w b,
  base s = Some b ->
  exists r ks',
    for_each ks (attach_reaction env) s w = (r, s, extend w (AddReaction b <$> ks'))
    /\ ks' `prefix_of` glyphs_attached (len_pages s w) ks
    /\ (r = Ok tt \/ r = Raise HTTPException)
    /\ (r = Ok tt -> ks' = glyphs_attached (len_pages s w) ks)
    /\ ((forall n, (length (trace w) <= n < length (trace w) + length ks)%nat ->
                   fails env n = false) -> r = Ok tt).
Proof.
  unfold glyphs_attached.
  induction ks as [|k ks IH]; intros s w b Hb.
  - exists (Ok tt), []. cbn [for_each fmap list_fmap]. rewrite extend_nil.
    unfold ret. repeat split; auto.
  - cbn [for_each]. unfold bind at 1. rewrite attach_reaction_eq, filter_cons, Hb.
    destruct ((len_pages s w =? 2) && Py.str_in k "⏮⏭") eqn:Hskip; cbn [negb].
    + destruct (IH s w b Hb) as (r & ks' & Heq & Hpre & Hr & Hok & Hall).
      exists r, ks'. rewrite Heq. rewrite decide_False by (by intros ?).
      repeat split; auto. intros H. apply Hall. intros n Hn. apply H.
      cbn [length]. lia.
    + rewrite decide_True by done.
      destruct (fails env (length (trace w))) eqn:Hf.
      * exists (Raise HTTPException), [k]. repeat split; auto.
        -- apply prefix_cons, prefix_nil.
        -- discriminate.
        -- intros Hall. rewrite Hall in Hf; [discriminate|]. cbn [length]. lia.
      * destruct (IH s (extend w [AddReaction b k]) b Hb)
          as (r & ks' & Heq & Hpre & Hr & Hok & Hall).
        exists r, (k :: ks').
        rewrite Heq, extend_extend. cbn [fmap list_fmap app]. repeat split; auto.
        -- by apply prefix_cons.
        -- intros ->. f_equal. by apply Hok.
        -- intros H. apply Hall. intros n Hn. apply H.
           unfold extend in Hn. cbn [trace] in Hn. rewrite length_app in Hn.
           cbn [length] in *. lia.
Qed.

(** ** [show_page] at a valid index *)

Lemma show_page_valid env s w i p :
  valid_page s w i = true ->
  pages_of s w !! Z.to_nat i = Some p ->
  show_page env i s w =
  let p' := rendered s w i p in
  let w1 := mkWorld (lists_rendered s w i p) (trace w) in
  let s1 := set_current i s in
  if running s then
    match base s with
    | None => (Raise AttributeError, s1, w1)
    | Some b =>
        (if fails env (length (trace w)) then Raise HTTPException else Ok tt,
         s1, extend w1 [Edit b p'])
    end
  else if fails env (length (trace w))
  then (Raise HTTPException, set_running true s1, extend w1 [Send (CEmbed p')])
  else for_each (keys (reaction_map s)) (attach_reaction env)
         (set_base (sent_message s w "") (set_running true s1))
         (extend w1 [Send (CEmbed p')]).
Proof.
  destruct w as [L t].
  intros Hv Hp. pose proof Hv as Hr%valid_page_spec.
  unfold show_page. unfold_m. rewrite Hv. cbn [negb].
  unfold getitem. unfold_m.
  assert (Hi : (i <? 0) = false) by lia.
  rewrite Hi. cbv iota. rewrite Hi, Hp.
  unfold lists_rendered, rendered, stamp_footer, page_footer, extend.
  destruct (page_num_enabled s); destruct (running s); cbv beta iota zeta;
    change (pages_of (set_current i s) (mkWorld L t)) with (pages_of s (mkWorld L t));
    rewrite ?Hp;
    cbv beta iota zeta; cbn [base set_current set_running pages trace lists];
    try (destruct (base s)); cbv beta iota zeta; cbn [trace lists];
    destruct (fails env (length t)); reflexivity.
Qed.

Lemma pages_of_rendered s s' w i p t :
  pages s' = pages s ->
  pages_of s w !! Z.to_nat i = Some p ->
  pages_of s' (mkWorld (lists_rendered s w i p) t) =
  if page_num_enabled s then <[ Z.to_nat i := rendered s w i p ]> (pages_of s w)
  else pages_of s w.
Proof.
  intros Hs Hp. unfold pages_of, lists_rendered. rewrite Hs.
  destruct (page_num_enabled s); cbn [lists]; [|reflexivity].
  by rewrite lookup_total_insert_eq.
Qed.

Lemma len_pages_rendered s s' w i p t :
  pages s' = pages s ->
  pages_of s w !! Z.to_nat i = Some p ->
  len_pages s' (mkWorld (lists_rendered s w i p) t) = len_pages s w.
Proof.
  intros Hs Hp. unfold len_pages. rewrite (pages_of_rendered s s' w i p t Hs Hp).
  destruct (page_num_enabled s); [|reflexivity]. by rewrite length_insert.
Qed.

Lemma displayed_edit t b e : displayed (t ++ [Edit b e]) = Some e.
Proof. unfold displayed. rewrite omap_app. apply last_snoc. Qed.

Lemma omap_shows_reactions m ks : omap shows (AddReaction m <$> ks) = [].
Proof. induction ks as [|k ks IH]; [reflexivity | exact IH]. Qed.

Lemma displayed_first_render t m e ks :
  displayed (t ++ Send (CEmbed e) :: (AddReaction m <$> ks)) = Some e.
Proof.
  unfold displayed. rewrite omap_app.
  change (omap shows (Send (CEmbed e) :: (AddReaction m <$> ks)))
    with (e :: omap shows (AddReaction m <$> ks)).
  rewrite omap_shows_reactions. apply last_snoc.
Qed.

(** What every call of [show_page] at a valid index leaves behind, whether
    the transport then fails or not. *)
Lemma show_page_valid_shape env s w i p :
  valid_page s w i = true ->
  pages_of s w !! Z.to_nat i = Some p ->
  exists r s' t,
    show_page env i s w = (r, s', mkWorld (lists_rendered s w i p) (trace w ++ t))
    /\ current s' = i
    /\ pages s' = pages s
    /\ page_num_enabled s' = page_num_enabled s
    /\ (r = Ok tt \/ r = Raise HTTPException \/ r = Raise AttributeError)
    /\ (r = Ok tt -> running s' = true
                    /\ displayed (trace w ++ t) = Some (rendered s w i p)).
Proof.
  intros Hv Hp. rewrite (show_page_valid env s w i p Hv Hp). cbv zeta.
  destruct (running s) eqn:Hrun.
  - destruct (base s) as [b|].
    + eexists _, _, [Edit b _]. split; [reflexivity|]. repeat split; auto.
      * destruct (fails env (length (trace w))); auto.
      * apply displayed_edit.
    + eexists _, _, []. rewrite app_nil_r. split; [reflexivity|].
      repeat split; auto; discriminate.
  - destruct (fails env (length (trace w))).
    + eexists _, _, [_]. split; [reflexivity|]. repeat split; auto; discriminate.
    + set (s1 := set_base _ _). set (w1 := extend _ _).
      destruct (attach_loop env (keys (reaction_map s)) s1 w1 (sent_message s w "") eq_refl)
        as (r & ks' & Heq & _ & Hr & _).
      rewrite Heq. subst w1. rewrite extend_extend.
      eexists _, _, _. split; [reflexivity|]. repeat split; auto.
      * destruct Hr; auto.
      * apply displayed_first_render.
Qed.

(** The first render when the transport does not fail during it. *)
Lemma show_page_first_render env s w i p :
  running s = false ->
  valid_page s w i = true ->
  pages_of s w !! Z.to_nat i = Some p ->
  (forall n, (length (trace w) <= n <= length (trace w) + length (reaction_map s))%nat ->
             fails env n = false) ->
  show_page env i s w =
  (Ok tt, set_base (sent_message s w "") (set_running true (set_current i s)),
   mkWorld (lists_rendered s w i p)
     (trace w ++ Send (CEmbed (rendered s w i p)) ::
        (AddReaction (sent_message s w "") <$>
           glyphs_attached (len_pages s w) (keys (reaction_map s))))).
Proof.
  intros Hrun Hi Hp Hfails.
  rewrite (show_page_valid env s w i p Hi Hp). cbv zeta.
  rewrite Hrun, Hfails by lia.
  set (s1 := set_base _ _). set (w1 := extend _ _).
  destruct (attach_loop env (keys (reaction_map s)) s1 w1 (sent_message s w "") eq_refl)
    as (r & ks' & Heq & _ & _ & Hok & Hall).
  assert (Hr : r = Ok tt).
  { apply Hall. intros n Hn. apply Hfails.
    unfold w1, extend, keys in Hn. cbn [trace] in Hn.
    rewrite length_app, length_fmap in Hn. cbn [length] in Hn. lia. }
  rewrite Heq, Hr, (Hok Hr).
  replace (len_pages s1 w1) with (len_pages s w)
    by (symmetry; by apply (len_pages_rendered s s1 w i p)).
  unfold w1. rewrite extend_extend. reflexivity.
Qed.

Lemma show_page_outcomes env s w i :
  let r := (show_page env i s w).1.1 in
  r = Ok tt \/ r = Raise HTTPException \/ r = Raise AttributeError.
Proof.
  destruct (valid_page s w i) eqn:Hv.
  - destruct (valid_page_lookup s w i Hv) as [p Hp].
    destruct (show_page_valid_shape env s w i p Hv Hp)
      as (r & s' & t & Heq & _ & _ & _ & Hr & _).
    by rewrite Heq.
  - rewrite show_page_invalid by done. by left.
Qed.

(** * The claims *)

(** ** C6 *)

(** C6. [show_page(i)] with [i < 0] or [i >= len(pages)] returns normally
    and changes nothing: the session (cursor, [running], every other
    attribute), the page lists and the trace are what they were, so no
    message was sent or edited. *)
Theorem show_page_out_of_range_is_noop env s w i :
  i < 0 \/ len_pages s w <= i ->
  show_page env i s w = (Ok tt, s, w).
Proof.
  intros H. apply show_page_invalid. by apply valid_page_false.
Qed.

Lemma show_page_out_of_range_is_noop_witness :
  (len_pages Sample.session Sample.three_pages <= 3) /\
  show_page Sample.quiet 3 Sample.session Sample.three_pages =
  (Ok tt, Sample.session, Sample.three_pages).
Proof.
  assert (H : len_pages Sample.session Sample.three_pages <= 3)
    by (vm_compute; discriminate).
  split; [exact H|].
  apply (show_page_out_of_range_is_noop Sample.quiet Sample.session
           Sample.three_pages 3).
  right. exact H.
Defined.

(** ** C3 *)

(** C3 (the code does otherwise).  Two sessions built without [pages] hold
    the same list object, the one of the default argument: a page added
    through the first is a page of the second. *)
Theorem default_pages_are_shared ctx1 ctx2 e w :
  let s1 := __init__ ctx1 None None None None in
  let s2 := __init__ ctx2 None None None None in
  pages s1 = pages s2
  /\ pages_of s2 (add_page (VEmbed e) s1 w).2 = pages_of s2 w ++ [e]
  /\ pages_of s2 (add_page (VEmbed (Sample.page "A")) s1 module_loaded).2
     = [Sample.page "A"].
Proof.
  cbv zeta. split; [reflexivity|]. split.
  - unfold pages_of at 1. cbn [add_page snd lists __init__ pages default].
    by rewrite lookup_total_insert_eq.
  - reflexivity.
Qed.

(** ** C9 *)

(** C9. [close(delete=True)] on a session that displays message [b] clears
    [running] and returns the coroutine of the deletion without having
    requested anything; awaiting it, as [run] does, records exactly one
    [Delete b].  [close(delete=False)] clears [running], returns [None] and
    requests nothing. *)
Theorem close_clears_running_and_deletes_once env s w b :
  base s = Some b ->
  running (set_running false s) = false
  /\ (exists co,
        close env true s w = (Ok (Some co), set_running false s, w)
        /\ co (set_running false s) w =
           (if fails env (length (trace w)) then Raise HTTPException else Ok tt,
            set_running false s, extend w [Delete b]))
  /\ (co <- close env true;; await co) s w =
     (if fails env (length (trace w)) then Raise HTTPException else Ok tt,
      set_running false s, extend w [Delete b])
  /\ delete_requests b (trace (extend w [Delete b])) = S (delete_requests b (trace w))
  /\ close env false s w = (Ok None, set_running false s, w).
Proof.
  intros Hb. split; [reflexivity|].
  assert (Hc : close env true s w =
               (Ok (Some (request env (Delete b);;; ret tt)), set_running false s, w)).
  { unfold close. unfold_m. cbn [base set_running]. by rewrite Hb. }
  assert (Hco : (request env (Delete b);;; ret tt) (set_running false s) w =
                (if fails env (length (trace w)) then Raise HTTPException else Ok tt,
                 set_running false s, extend w [Delete b])).
  { unfold_m. by destruct (fails env (length (trace w))). }
  repeat split.
  - eexists. split; [exact Hc | exact Hco].
  - unfold bind at 1. rewrite Hc. exact Hco.
  - unfold delete_requests, extend. cbn [trace].
    rewrite filter_app, length_app, filter_cons, decide_True by done.
    cbn. lia.
Qed.

Lemma close_clears_running_and_deletes_once_witness :
  base Sample.shown = Some (sent_message Sample.session Sample.three_pages "")
  /\ (co <- close Sample.quiet true;; await co) Sample.shown Sample.shown_world =
     (Ok tt, set_running false Sample.shown,
      extend Sample.shown_world
        [Delete (sent_message Sample.session Sample.three_pages "")]).
Proof.
  assert (H : base Sample.shown = Some (sent_message Sample.session Sample.three_pages ""))
    by reflexivity.
  split; [exact H|].
  exact (proj1 (proj2 (proj2
    (close_clears_running_and_deletes_once Sample.quiet Sample.shown
       Sample.shown_world _ H)))).
Defined.

(** ** C2 *)

Lemma nav_target env a s w :
  nav env a s w =
  show_page env
    match a with
    | NavPrevious => current s - 1
    | NavNext => current s + 1
    | NavFirst => 0
    | NavLast => len_pages s w - 1
    end s w.
Proof. destruct a; reflexivity. Qed.

(** One call of [show_page], at any index, keeps the page list where it is
    and as long as it was, and the cursor inside it. *)
Lemma show_page_keeps_cursor env i s w :
  0 <= current s < len_pages s w ->
  let '(_, s', w') := show_page env i s w in
  0 <= current s' < len_pages s' w' /\ len_pages s' w' = len_pages s w.
Proof.
  intros Hc. destruct (valid_page s w i) eqn:Hv.
  - destruct (valid_page_lookup s w i Hv) as [p Hp].
    destruct (show_page_valid_shape env s w i p Hv Hp)
      as (r & s' & t & -> & Hcur & Hpages & _).
    rewrite (len_pages_rendered s s' w i p _ Hpages Hp), Hcur.
    split; [by apply valid_page_spec | reflexivity].
  - rewrite show_page_invalid by done. auto.
Qed.

(** C2. From a cursor inside a non-empty page list, every sequence of
    [previous_page], [next_page], [first_page] and [last_page] leaves the
    cursor inside [0, len(pages)), whatever the transport does; and
    [previous_page] at cursor 0 and [next_page] at the last index return
    normally with session, page lists and trace unchanged. *)
Theorem navigation_keeps_cursor_in_range env acts s w :
  pages_of s w <> [] ->
  0 <= current s < len_pages s w ->
  (let '(s', w') := navigate env acts s w in
   0 <= current s' < len_pages s' w' /\ len_pages s' w' = len_pages s w)
  /\ (current s = 0 -> nav env NavPrevious s w = (Ok tt, s, w))
  /\ (current s = len_pages s w - 1 -> nav env NavNext s w = (Ok tt, s, w)).
Proof.
  intros _ Hc. repeat split.
  - revert s w Hc. induction acts as [|a acts IH]; intros s w Hc; cbn [navigate].
    + auto.
    + rewrite nav_target.
      pose proof (show_page_keeps_cursor env
                    match a with
                    | NavPrevious => current s - 1
                    | NavNext => current s + 1
                    | NavFirst => 0
                    | NavLast => len_pages s w - 1
                    end s w Hc) as H.
      destruct (show_page env _ s w) as [[r s1] w1]. destruct H as [H1 H2].
      specialize (IH s1 w1 H1). destruct (navigate env acts s1 w1) as [s2 w2].
      destruct IH as [IH1 IH2]. split; [exact IH1 | congruence].
  - intros H0. rewrite nav_target. apply show_page_invalid, valid_page_false. lia.
  - intros H0. rewrite nav_target. apply show_page_invalid, valid_page_false. lia.
Qed.

Lemma navigation_keeps_cursor_in_range_witness :
  let acts := [NavNext; NavNext; NavNext; NavPrevious; NavLast; NavFirst; NavPrevious] in
  let s := Sample.session in
  let w := Sample.three_pages in
  pages_of s w <> []
  /\ 0 <= current s < len_pages s w
  /\ (let '(s', w') := navigate Sample.quiet acts s w in
      0 <= current s' < len_pages s' w' /\ len_pages s' w' = len_pages s w)
  /\ (current s = 0 -> nav Sample.quiet NavPrevious s w = (Ok tt, s, w))
  /\ (current s = len_pages s w - 1 -> nav Sample.quiet NavNext s w = (Ok tt, s, w)).
Proof.
  cbv zeta.
  assert (H1 : pages_of Sample.session Sample.three_pages <> [])
    by (vm_compute; discriminate).
  assert (H2 : 0 <= current Sample.session
               < len_pages Sample.session Sample.three_pages)
    by (vm_compute; split; [discriminate | reflexivity]).
  split; [exact H1|]. split; [exact H2|].
  exact (navigation_keeps_cursor_in_range Sample.quiet
           [NavNext; NavNext; NavNext; NavPrevious; NavLast; NavFirst; NavPrevious]
           Sample.session Sample.three_pages H1 H2).
Defined.

(** ** C7 *)

Lemma set_footer_twice txt e : set_footer txt (set_footer txt e) = set_footer txt e.
Proof. reflexivity. Qed.

(** C7. With page numbering on, a call [show_page(i)] at a valid index that
    returns normally leaves the cursor at [i]; the page put on display is
    the page now stored at the cursor, and its footer is exactly
    "Page {cursor+1}/{len(pages)}" (the old footer is replaced).  Showing the
    same index again changes no page list: the footer is written over, not
    added to. *)
Theorem show_page_stamps_footer env s w i s' w' :
  page_num_enabled s = true ->
  0 <= i < len_pages s w ->
  show_page env i s w = (Ok tt, s', w') ->
  exists p,
    current s' = i
    /\ displayed (trace w') = Some p
    /\ pages_of s' w' !! Z.to_nat (current s') = Some p
    /\ embed_footer p =
       Some (mkFooter (Some ("Page " +:+ Py.str (current s' + 1) +:+ "/" +:+
                             Py.str (len_pages s' w'))) None)
    /\ forall env2,
         lists (show_page env2 i s' w').2 = lists w'
         /\ pages_of s' (show_page env2 i s' w').2 !! Z.to_nat i = Some p.
Proof.
  intros Hnum Hi%valid_page_spec Hshow.
  destruct (valid_page_lookup s w i Hi) as [p Hp].
  destruct (show_page_valid_shape env s w i p Hi Hp)
    as (r & s1 & t & Heq & Hcur & Hpages & Hnum1 & _ & Hok).
  rewrite Hshow in Heq. injection Heq as <- <- ->.
  destruct (Hok eq_refl) as [_ Hdisp]. cbn [trace].
  assert (Hlen : len_pages s' (mkWorld (lists_rendered s w i p) (trace w ++ t))
                 = len_pages s w) by (by apply len_pages_rendered).
  assert (Hlook : pages_of s' (mkWorld (lists_rendered s w i p) (trace w ++ t))
                    !! Z.to_nat i = Some (rendered s w i p)).
  { rewrite (pages_of_rendered s s' w i p _ Hpages Hp), Hnum.
    apply list_lookup_insert_eq. by eapply lookup_lt_Some. }
  exists (rendered s w i p). rewrite Hcur, Hlen. repeat split; auto.
  - unfold rendered. by rewrite Hnum.
  - set (w1 := mkWorld _ _) in *.
    assert (Hv1 : valid_page s' w1 i = true)
      by (apply valid_page_spec; rewrite Hlen; by apply valid_page_spec).
    destruct (show_page_valid_shape env2 s' w1 i _ Hv1 Hlook)
      as (r2 & s2 & t2 & -> & _). cbn [snd lists].
    unfold lists_rendered. rewrite Hnum1, Hnum.
    replace (rendered s' w1 i (rendered s w i p)) with (rendered s w i p).
    + rewrite list_insert_id by done.
      apply insert_id. unfold pages_of, w1, lists_rendered. cbn [lists].
      rewrite Hnum, Hpages. by rewrite lookup_total_insert_eq, lookup_insert_eq.
    + unfold rendered, page_footer. rewrite Hnum1, Hnum, Hlen.
      symmetry. apply set_footer_twice.
  - set (w1 := mkWorld _ _) in *.
    assert (Hv1 : valid_page s' w1 i = true)
      by (apply valid_page_spec; rewrite Hlen; by apply valid_page_spec).
    destruct (show_page_valid_shape env2 s' w1 i _ Hv1 Hlook)
      as (r2 & s2 & t2 & -> & _). cbn [snd].
    rewrite (pages_of_rendered s' s' w1 i _ _ eq_refl Hlook), Hnum1, Hnum.
    replace (rendered s' w1 i (rendered s w i p)) with (rendered s w i p).
    + by rewrite list_insert_id.
    + unfold rendered, page_footer. rewrite Hnum1, Hnum, Hlen.
      symmetry. apply set_footer_twice.
Qed.

Lemma show_page_stamps_footer_witness :
  page_num_enabled Sample.session = true
  /\ 0 <= 0 < len_pages Sample.session Sample.three_pages
  /\ show_page Sample.quiet 0 Sample.session Sample.three_pages
     = (Ok tt, Sample.shown, Sample.shown_world)
  /\ exists p,
       current Sample.shown = 0
       /\ displayed (trace Sample.shown_world) = Some p
       /\ pages_of Sample.shown Sample.shown_world !! Z.to_nat (current Sample.shown)
          = Some p
       /\ embed_footer p =
          Some (mkFooter (Some ("Page " +:+ Py.str (current Sample.shown + 1) +:+ "/" +:+
                                Py.str (len_pages Sample.shown Sample.shown_world))) None)
       /\ forall env2,
            lists (show_page env2 0 Sample.shown Sample.shown_world).2
            = lists Sample.shown_world
            /\ pages_of Sample.shown (show_page env2 0 Sample.shown Sample.shown_world).2
                 !! Z.to_nat 0 = Some p.
Proof.
  assert (H1 : page_num_enabled Sample.session = true) by reflexivity.
  assert (H2 : 0 <= 0 < len_pages Sample.session Sample.three_pages)
    by (vm_compute; split; [discriminate | reflexivity]).
  assert (H3 : show_page Sample.quiet 0 Sample.session Sample.three_pages
               = (Ok tt, Sample.shown, Sample.shown_world))
    by (vm_compute; reflexivity).
  split; [exact H1|]. split; [exact H2|]. split; [exact H3|].
  exact (show_page_stamps_footer Sample.quiet Sample.session Sample.three_pages 0
           Sample.shown Sample.shown_world H1 H2 H3).
Defined.

(** ** C8 *)

Lemma glyphs_attached_controls n :
  glyphs_attached n (keys controls) =
  if n =? 2 then ["◀"; "⏹"; "▶"; "🔢"; "🤔"]
  else ["⏮"; "◀"; "⏹"; "▶"; "⏭"; "🔢"; "🤔"].
Proof.
  unfold glyphs_attached. destruct (n =? 2); vm_compute; reflexivity.
Qed.

(** C8. On the first render ([running] false, valid index, the controls of
    the constructor, a transport that does not fail) [show_page] returns
    normally, makes exactly one [Send], stores the new message as [base],
    sets [running], and then asks for one reaction per control glyph in
    insertion order; with exactly two pages the first-page and last-page
    glyphs are left out, with any other page count none is. *)
Theorem first_render_sends_once_and_attaches_controls env s w i p :
  running s = false ->
  0 <= i < len_pages s w ->
  pages_of s w !! Z.to_nat i = Some p ->
  reaction_map s = controls ->
  (forall n, (length (trace w) <= n <= length (trace w) + 7)%nat -> fails env n = false) ->
  let m := sent_message s w "" in
  let s' := set_base m (set_running true (set_current i s)) in
  running s' = true
  /\ base s' = Some m
  /\ show_page env i s w =
     (Ok tt, s',
      mkWorld (lists_rendered s w i p)
        (trace w ++ Send (CEmbed (rendered s w i p)) ::
           (AddReaction m <$>
              (if len_pages s w =? 2
               then ["◀"; "⏹"; "▶"; "🔢"; "🤔"]
               else ["⏮"; "◀"; "⏹"; "▶"; "⏭"; "🔢"; "🤔"])))).
Proof.
  intros Hrun Hi%valid_page_spec Hp Hmap Hfails. cbv zeta.
  split; [reflexivity|]. split; [reflexivity|].
  rewrite (show_page_first_render env s w i p Hrun Hi Hp).
  - by rewrite Hmap, glyphs_attached_controls.
  - rewrite Hmap. exact Hfails.
Qed.

Lemma first_render_sends_once_and_attaches_controls_witness :
  let s := Sample.session in
  let w := Sample.two_pages in
  let m := sent_message s w "" in
  running s = false
  /\ 0 <= 0 < len_pages s w
  /\ pages_of s w !! Z.to_nat 0 = Some (Sample.page "A")
  /\ reaction_map s = controls
  /\ (forall n, (length (trace w) <= n <= length (trace w) + 7)%nat ->
                fails Sample.quiet n = false)
  /\ (show_page Sample.quiet 0 s w).2 =
     mkWorld (lists_rendered s w 0 (Sample.page "A"))
       [Send (CEmbed (set_footer "Page 1/2" (Sample.page "A")));
        AddReaction m "◀"; AddReaction m "⏹"; AddReaction m "▶";
        AddReaction m "🔢"; AddReaction m "🤔"].
Proof.
  cbv zeta.
  assert (H1 : running Sample.session = false) by reflexivity.
  assert (H2 : 0 <= 0 < len_pages Sample.session Sample.two_pages)
    by (vm_compute; split; [discriminate | reflexivity]).
  assert (H3 : pages_of Sample.session Sample.two_pages !! Z.to_nat 0
               = Some (Sample.page "A")) by reflexivity.
  assert (H4 : reaction_map Sample.session = controls) by reflexivity.
  assert (H5 : forall n, (length (trace Sample.two_pages) <= n
                          <= length (trace Sample.two_pages) + 7)%nat ->
                         fails Sample.quiet n = false) by reflexivity.
  repeat (split; [assumption|]).
  rewrite (proj2 (proj2 (first_render_sends_once_and_attaches_controls
             Sample.quiet Sample.session Sample.two_pages 0 (Sample.page "A")
             H1 H2 H3 H4 H5))).
  reflexivity.
Defined.

(** ** The page-jump dialog *)

Lemma ask_for_page_eq env s w :
  fails env (length (trace w)) = false ->
  ask_for_page env s w =
  let prompt := sent_message s w prompt_text in
  let w1 := extend (extend w [Send (CText prompt_text)]) [WaitMessage 30] in
  let cleanup (to_delete : list Message) : M unit :=
    (_ <- attempt (sleep 5;;; request env (DeleteMessages to_delete));; ret tt) in
  match wait_scan (message_check env s) (messages env (S (length (trace w)))) with
  | inl TimeoutError =>
      (x <- ctx_send env (CText "Took too long.");; cleanup [prompt; x]) s w1
  | inl e => (Raise e, s, w1)
  | inr msg =>
      match Py.int (unicode env) (msg_content msg) with
      | None => (Raise ValueError, s, w1)
      | Some page =>
          if negb (page =? 0) && (page <=? len_pages s w)
          then (show_page env (page - 1);;; cleanup [prompt; msg]) s w1
          else (x <- ctx_send env (CText ("Invalid page given. (" +:+ Py.str page +:+
                                          "/" +:+ Py.str (len_pages s w) +:+ ")"));;
                cleanup [prompt; msg; x]) s w1
      end
  end.
Proof.
  intros Hf. unfold ask_for_page, sent_message, prompt_text, extend. unfold_m.
  rewrite Hf. cbn [trace lists]. rewrite length_app, Nat.add_1_r.
  destruct (wait_scan _ _) as [e|msg].
  - destruct e; try reflexivity.
    repeat (cbv beta iota zeta; cbn [trace lists];
            match goal with
            | |- context [fails env ?n] => destruct (fails env n)
            end);
      reflexivity.
  - destruct (Py.int (unicode env) (msg_content msg)) as [page|]; [|reflexivity].
    change (len_pages s {| lists := lists w; trace := ?t |}) with (len_pages s w).
    destruct (negb (page =? 0) && (page <=? len_pages s w)).
    + destruct (show_page env (page - 1) s _) as [[[] s'] w']; reflexivity.
    + repeat (cbv beta iota zeta; cbn [trace lists];
              match goal with
              | |- context [fails env ?n] => destruct (fails env n)
              end);
        reflexivity.
Qed.

(** ** C5 *)

(** C5. When the prompt goes out and no message passing [message_check]
    arrives before the wait of 30 expires, the session sends "Took too
    long.", leaves session and page lists untouched (so the cursor stands),
    sleeps 5, and asks once for the deletion of the prompt and the notice;
    [ask_for_page] returns normally whether that deletion fails or not. *)
Theorem jump_dialog_timeout env s w :
  let n := length (trace w) in
  let prompt := sent_message s w prompt_text in
  let notice := mkMessage (S (S n)) (ctx_me (ctx s)) (ctx_channel (ctx s))
                          "Took too long." in
  fails env n = false ->
  none_accepted (message_check env s) (messages env (S n)) ->
  fails env (S (S n)) = false ->
  ask_for_page env s w =
  (Ok tt, s,
   extend w [Send (CText prompt_text); WaitMessage 30; Send (CText "Took too long.");
             Sleep 5; DeleteMessages [prompt; notice]]).
Proof.
  intros n prompt notice Hf Hnone Hf2.
  rewrite ask_for_page_eq by done. cbv zeta.
  rewrite wait_scan_none by done. rewrite extend_extend. cbn [app].
  unfold extend, sent_message. unfold_m. cbn [trace lists].
  rewrite length_app. cbn [length]. rewrite Nat.add_comm. cbn [Nat.add].
  fold n. rewrite Hf2. cbv beta iota zeta. cbn [trace lists].
  rewrite <- !app_assoc. cbn [app].
  match goal with
  | |- context [fails env (length ?t)] => destruct (fails env (length t))
  end; reflexivity.
Qed.

Lemma jump_dialog_timeout_witness :
  let s := Sample.shown in
  let w := Sample.shown_world in
  let env := Sample.failing 12 in
  fails env (length (trace w)) = false
  /\ none_accepted (message_check env s) (messages env (S (length (trace w))))
  /\ fails env (S (S (length (trace w)))) = false
  /\ fails env 12 = true
  /\ ask_for_page env s w =
     (Ok tt, s,
      extend w [Send (CText prompt_text); WaitMessage 30; Send (CText "Took too long.");
                Sleep 5;
                DeleteMessages [mkMessage 8%nat 1%nat 3%nat prompt_text;
                                mkMessage 10%nat 1%nat 3%nat "Took too long."]]).
Proof.
  cbv zeta.
  assert (H1 : fails (Sample.failing 12) (length (trace Sample.shown_world)) = false)
    by reflexivity.
  assert (H2 : none_accepted (message_check (Sample.failing 12) Sample.shown)
                 (messages (Sample.failing 12) (S (length (trace Sample.shown_world)))))
    by constructor.
  assert (H3 : fails (Sample.failing 12) (S (S (length (trace Sample.shown_world))))
               = false) by reflexivity.
  split; [exact H1|]. split; [exact H2|]. split; [exact H3|]. split; [reflexivity|].
  exact (jump_dialog_timeout (Sample.failing 12) Sample.shown Sample.shown_world
           H1 H2 H3).
Defined.

(** ** C4 *)

(** C4. When the prompt goes out and the accepted reply parses to [k]:
    for [1 <= k <= len(pages)] the dialog is the call [show_page(k-1)]
    followed, if that returns, by the cleanup of prompt and reply, and the
    cursor ends at [k-1]; for [k = 0] or [k > len(pages)] the session is left
    as it was, no page list changes, and the one request after the wait is
    the notice "Invalid page given. (k/len)". *)
Theorem jump_dialog_page_number env s w msg k :
  let n := length (trace w) in
  let prompt := sent_message s w prompt_text in
  let w1 := extend w [Send (CText prompt_text); WaitMessage 30] in
  let notice_text :=
    "Invalid page given. (" +:+ Py.str k +:+ "/" +:+ Py.str (len_pages s w) +:+ ")" in
  let notice := mkMessage (S (S n)) (ctx_me (ctx s)) (ctx_channel (ctx s)) notice_text in
  fails env n = false ->
  wait_scan (message_check env s) (messages env (S n)) = inr msg ->
  Py.int (unicode env) (msg_content msg) = Some k ->
  (1 <= k <= len_pages s w ->
   ask_for_page env s w =
   match show_page env (k - 1) s w1 with
   | (Ok _, s', w') =>
       (Ok tt, s', extend w' [Sleep 5; DeleteMessages [prompt; msg]])
   | failed => failed
   end
   /\ current (ask_for_page env s w).1.2 = k - 1)
  /\ (k = 0 \/ len_pages s w < k ->
      ask_for_page env s w =
      if fails env (S (S n))
      then (Raise HTTPException, s, extend w1 [Send (CText notice_text)])
      else (Ok tt, s,
            extend w1 [Send (CText notice_text); Sleep 5;
                       DeleteMessages [prompt; msg; notice]])).
Proof.
  intros n prompt w1 notice_text notice Hf Hwait Hint.
  rewrite ask_for_page_eq by done. cbv zeta. fold n. rewrite Hwait, Hint.
  rewrite extend_extend. cbn [app]. fold w1 prompt. split.
  - intros Hk. replace (negb (k =? 0) && (k <=? len_pages s w)) with true by lia.
    assert (Hv : valid_page s w1 (k - 1) = true)
      by (apply valid_page_spec; change (len_pages s w1) with (len_pages s w); lia).
    destruct (valid_page_lookup s w1 (k - 1) Hv) as [p Hp].
    destruct (show_page_valid_shape env s w1 (k - 1) p Hv Hp)
      as (r & s' & t & Heq & Hcur & _ & _ & Hr & _).
    match goal with
    | |- ?lhs = ?rhs /\ _ => assert (Hrun : lhs = rhs)
    end.
    { unfold bind at 1.
      destruct (show_page env (k - 1) s w1) as [[[] s2] w2]; try reflexivity.
      unfold_m. unfold extend. cbn [trace lists]. rewrite <- !app_assoc. cbn [app].
      match goal with
      | |- context [fails env (length ?t)] => destruct (fails env (length t))
      end; reflexivity. }
    rewrite Hrun. split; [reflexivity|]. rewrite Heq.
    destruct Hr as [-> | [-> | ->]]; exact Hcur.
  - intros Hk.
    replace (negb (k =? 0) && (k <=? len_pages s w)) with false by lia.
    unfold w1, extend. unfold_m. cbn [trace lists].
    rewrite length_app. cbn [length]. rewrite Nat.add_comm. cbn [Nat.add]. fold n.
    destruct (fails env (S (S n))); [reflexivity|].
    cbv beta iota zeta. cbn [trace lists]. rewrite <- !app_assoc. cbn [app].
    match goal with
    | |- context [fails env (length ?t)] => destruct (fails env (length t))
    end; reflexivity.
Qed.

Lemma jump_dialog_page_number_witness :
  let s := Sample.shown in
  let w := Sample.shown_world in
  (fails (Sample.answers 8 "2") (length (trace w)) = false
   /\ wait_scan (message_check (Sample.answers 8 "2") s)
        (messages (Sample.answers 8 "2") (S (length (trace w))))
      = inr (Sample.reply "2")
   /\ Py.int Sample.ucd (msg_content (Sample.reply "2")) = Some 2
   /\ 1 <= 2 <= len_pages s w
   /\ current (ask_for_page (Sample.answers 8 "2") s w).1.2 = 2 - 1)
  /\ (fails (Sample.answers 8 "0") (length (trace w)) = false
      /\ wait_scan (message_check (Sample.answers 8 "0") s)
           (messages (Sample.answers 8 "0") (S (length (trace w))))
         = inr (Sample.reply "0")
      /\ Py.int Sample.ucd (msg_content (Sample.reply "0")) = Some 0
      /\ (0 = 0 \/ len_pages s w < 0)
      /\ ask_for_page (Sample.answers 8 "0") s w =
         (Ok tt, s,
          extend w [Send (CText prompt_text); WaitMessage 30;
                    Send (CText "Invalid page given. (0/3)"); Sleep 5;
                    DeleteMessages [mkMessage 8%nat 1%nat 3%nat prompt_text; Sample.reply "0";
                                    mkMessage 10%nat 1%nat 3%nat "Invalid page given. (0/3)"]])).
Proof.
  cbv zeta. split.
  - assert (H1 : fails (Sample.answers 8 "2") (length (trace Sample.shown_world)) = false)
      by reflexivity.
    assert (H2 : wait_scan (message_check (Sample.answers 8 "2") Sample.shown)
                   (messages (Sample.answers 8 "2")
                      (S (length (trace Sample.shown_world))))
                 = inr (Sample.reply "2")) by reflexivity.
    assert (H3 : Py.int Sample.ucd (msg_content (Sample.reply "2")) = Some 2) by reflexivity.
    assert (H4 : 1 <= 2 <= len_pages Sample.shown Sample.shown_world)
      by (vm_compute; split; discriminate).
    repeat (split; [assumption|]).
    exact (proj2 (proj1 (jump_dialog_page_number (Sample.answers 8 "2") Sample.shown
                           Sample.shown_world (Sample.reply "2") 2 H1 H2 H3) H4)).
  - assert (H1 : fails (Sample.answers 8 "0") (length (trace Sample.shown_world)) = false)
      by reflexivity.
    assert (H2 : wait_scan (message_check (Sample.answers 8 "0") Sample.shown)
                   (messages (Sample.answers 8 "0")
                      (S (length (trace Sample.shown_world))))
                 = inr (Sample.reply "0")) by reflexivity.
    assert (H3 : Py.int Sample.ucd (msg_content (Sample.reply "0")) = Some 0) by reflexivity.
    assert (H4 : 0 = 0 \/ len_pages Sample.shown Sample.shown_world < 0)
      by (left; reflexivity).
    repeat (split; [assumption|]).
    rewrite (proj2 (jump_dialog_page_number (Sample.answers 8 "0") Sample.shown
                      Sample.shown_world (Sample.reply "0") 0 H1 H2 H3) H4).
    reflexivity.
Defined.

(** ** C1 *)

(** One turn of the loop of [run] in which no reaction passes [react_check]
    before the timeout: the handler assigns [paginating], asks for the
    reactions to be cleared, ignores a failure of that request and breaks.
    [running] is not assigned. *)
Lemma run_loop_timeout env fuel s w b :
  running s = true ->
  base s = Some b ->
  none_accepted (react_check s) (reactions env (length (trace w))) ->
  run_loop env (S fuel) s w =
  (Ok tt, set_paginating false s,
   extend w [WaitReaction (timeout s); ClearReactions b]).
Proof.
  intros Hrun Hb Hnone. cbn [run_loop]. unfold_m. rewrite Hrun.
  rewrite wait_scan_none by done. cbn [base set_paginating]. rewrite Hb.
  unfold extend. cbn [trace lists]. rewrite <- app_assoc. cbn [app].
  destruct (fails env _); reflexivity.
Qed.

(** C1 (the code does otherwise).  A session over three pages is run; the
    user never reacts.  For every positive amount of fuel [run] returns
    normally after one wait and one request to clear the reactions, also
    when that request fails; but [running] is still true: the handler
    assigned [paginating] instead. *)
Theorem run_timeout_leaves_running_true fuel :
  let m := sent_message Sample.session Sample.three_pages "" in
  run Sample.quiet (S fuel) Sample.session Sample.three_pages =
    (Ok tt, set_paginating false Sample.shown,
     extend Sample.shown_world [WaitReaction 60; ClearReactions m])
  /\ run (Sample.failing 9) (S fuel) Sample.session Sample.three_pages =
    (Ok tt, set_paginating false Sample.shown,
     extend Sample.shown_world [WaitReaction 60; ClearReactions m])
  /\ running (set_paginating false Sample.shown) = true
  /\ paginating (set_paginating false Sample.shown) = Some false.
Proof.
  cbv zeta.
  assert (Hshow : forall env,
            (forall n, (n < 9)%nat -> fails env n = false) ->
            show_page env 0 Sample.session Sample.three_pages
            = (Ok tt, Sample.shown, Sample.shown_world)).
  { intros env Hfails.
    rewrite (show_page_first_render env Sample.session Sample.three_pages 0
               (Sample.page "A")); [| reflexivity | reflexivity | reflexivity |].
    - vm_compute. reflexivity.
    - intros n Hn. apply Hfails. cbn in Hn. lia. }
  assert (Hrun : forall env,
            (forall n, (n < 9)%nat -> fails env n = false) ->
            reactions env 8 = [] ->
            run env (S fuel) Sample.session Sample.three_pages =
            (Ok tt, set_paginating false Sample.shown,
             extend Sample.shown_world
               [WaitReaction 60;
                ClearReactions (sent_message Sample.session Sample.three_pages "")])).
  { intros env Hfails Hquiet. unfold run. unfold bind at 1. cbn [get_self].
    unfold bind at 1.
    change (negb (running Sample.session)) with true. cbv iota.
    rewrite (Hshow env Hfails).
    apply (run_loop_timeout env fuel Sample.shown Sample.shown_world);
      [reflexivity | reflexivity |].
    change (length (trace Sample.shown_world)) with 8%nat.
    rewrite Hquiet. constructor. }
  split; [|split; [|split; reflexivity]].
  - apply Hrun; [reflexivity | reflexivity].
  - apply Hrun; [|reflexivity].
    intros n Hn. apply Nat.eqb_neq. lia.
Qed.

(** * Further properties of the session *)

(** ** The event filters *)

Lemma dict_get_keys (d : list (string * Callback)) k :
  k ∈ keys d <-> is_Some (dict_get d k).
Proof.
  unfold keys. induction d as [|[k' v] d IH]; cbn [dict_get fmap list_fmap fst].
  - split; [intros H; by apply elem_of_nil in H | intros [? ?]; discriminate].
  - rewrite elem_of_cons. destruct (String.eqb_spec k' k) as [->|Hne].
    + split; eauto.
    + rewrite <- IH. split; [intros [?|?]; congruence | auto].
Qed.

(** X1. With a message on display, [react_check] never raises, and it
    accepts a reaction exactly when the reacting user is the invoking user,
    the reaction is on the displayed message and the emoji is a key of
    [reaction_map]. *)
Theorem react_check_accepts_own_controls s b reaction user :
  base s = Some b ->
  (react_check s (reaction, user) = inr true \/
   react_check s (reaction, user) = inr false)
  /\ (react_check s (reaction, user) = inr true <->
      user = ctx_author (ctx s)
      /\ reaction_message reaction = msg_id b
      /\ reaction_emoji reaction ∈ keys (reaction_map s)).
Proof.
  intros Hb. unfold react_check, Py.key_in. rewrite Hb.
  destruct (Nat.eqb_spec user (ctx_author (ctx s))) as [Hu|Hu]; cbn [negb].
  - destruct (Nat.eqb_spec (reaction_message reaction) (msg_id b)) as [Hm|Hm];
      cbn [negb].
    + destruct (bool_decide_reflect
                  (reaction_emoji reaction ∈ keys (reaction_map s))) as [He|He].
      * split; [by left|]. split; [done|]. intros _. done.
      * split; [by right|]. split; [discriminate|]. intros (_ & _ & ?). done.
    + split; [by right|]. split; [discriminate|]. intros (_ & ? & _). done.
  - split; [by right|]. split; [discriminate|]. intros (? & _). done.
Qed.

Lemma react_check_accepts_own_controls_witness :
  let ev := mkReaction "▶" 0%nat in
  base Sample.shown = Some (sent_message Sample.session Sample.three_pages "")
  /\ react_check Sample.shown (ev, 7%nat) = inr true
  /\ react_check Sample.shown (ev, 8%nat) = inr false.
Proof.
  cbv zeta.
  assert (H : base Sample.shown
              = Some (sent_message Sample.session Sample.three_pages ""))
    by reflexivity.
  split; [exact H|]. split.
  - apply (react_check_accepts_own_controls Sample.shown _ (mkReaction "▶" 0%nat)
             7%nat H).
    split; [reflexivity|]. split; [reflexivity|]. vm_compute.
    apply list_elem_of_In. cbn. tauto.
  - reflexivity.
Defined.

(** X2. Before any message is on display, [react_check] turns away every
    other user, and raises [AttributeError] on a reaction of the invoking
    user, whatever the message and the emoji. *)
Theorem react_check_without_base s reaction user :
  base s = None ->
  react_check s (reaction, user) =
  if (user =? ctx_author (ctx s))%nat then inl AttributeError else inr false.
Proof.
  intros Hb. unfold react_check. rewrite Hb.
  by destruct (user =? ctx_author (ctx s))%nat.
Qed.

Lemma react_check_without_base_witness :
  base Sample.session = None
  /\ react_check Sample.session (mkReaction "▶" 0%nat, 7%nat) = inl AttributeError.
Proof.
  assert (H : base Sample.session = None) by reflexivity.
  split; [exact H|].
  exact (react_check_without_base Sample.session (mkReaction "▶" 0%nat) 7%nat H).
Defined.

Lemma react_check_key s reaction user :
  react_check s (reaction, user) = inr true ->
  reaction_emoji reaction ∈ keys (reaction_map s).
Proof.
  unfold react_check, Py.key_in. intros H.
  destruct (negb _); [discriminate|].
  destruct (base s); [|discriminate].
  destruct (negb _); [discriminate|].
  by destruct (bool_decide_reflect (reaction_emoji reaction ∈ keys (reaction_map s))).
Qed.

Lemma react_check_raises s b ev e :
  base s = Some b -> react_check s ev <> inl e.
Proof.
  intros Hb. destruct ev as [reaction user]. unfold react_check. rewrite Hb.
  destruct (negb _); [discriminate|].
  destruct (negb _); [discriminate|].
  by destruct (Py.key_in _ _).
Qed.

(** X3. A reaction that [react_check] accepts has an action in
    [reaction_map]: the [get] in [run] does not return [None] for it. *)
Theorem accepted_reaction_has_action s reaction user :
  react_check s (reaction, user) = inr true ->
  exists cb, dict_get (reaction_map s) (reaction_emoji reaction) = Some cb.
Proof.
  intros H%react_check_key. by apply dict_get_keys.
Qed.

Lemma accepted_reaction_has_action_witness :
  react_check Sample.shown (mkReaction "⏹" 0%nat, 7%nat) = inr true
  /\ exists cb, dict_get (reaction_map Sample.shown) "⏹" = Some cb.
Proof.
  assert (H : react_check Sample.shown (mkReaction "⏹" 0%nat, 7%nat) = inr true)
    by reflexivity.
  split; [exact H|].
  exact (accepted_reaction_has_action Sample.shown (mkReaction "⏹" 0%nat) 7%nat H).
Defined.





(** ** Navigation *)

(** X5. From a cursor inside the page list, [previous_page] and [next_page]
    move the cursor by one and stop at the ends, [first_page] and
    [last_page] put it on the first and the last index; this holds also when
    the edit or the send then fails. *)
Theorem navigation_saturates env a s w :
  0 <= current s < len_pages s w ->
  current (nav env a s w).1.2 = nav_cursor a (current s) (len_pages s w).
Proof.
  intros Hc. rewrite nav_target.
  set (i := match a with
            | NavPrevious => current s - 1
            | NavNext => current s + 1
            | NavFirst => 0
            | NavLast => len_pages s w - 1
            end).
  destruct (valid_page s w i) eqn:Hv.
  - destruct (valid_page_lookup s w i Hv) as [p Hp].
    destruct (show_page_valid_shape env s w i p Hv Hp)
      as (r & s' & t & -> & Hcur & _).
    cbn [fst snd]. rewrite Hcur. apply valid_page_spec in Hv.
    subst i. destruct a; unfold nav_cursor; lia.
  - rewrite show_page_invalid by done. cbn [fst snd].
    apply valid_page_false in Hv. subst i. destruct a; unfold nav_cursor; lia.
Qed.

Lemma navigation_saturates_witness :
  0 <= current Sample.shown < len_pages Sample.shown Sample.shown_world
  /\ current (nav (Sample.failing 8) NavNext Sample.shown Sample.shown_world).1.2 = 1
  /\ current (nav Sample.quiet NavPrevious Sample.shown Sample.shown_world).1.2 = 0
  /\ current (nav Sample.quiet NavLast Sample.shown Sample.shown_world).1.2 = 2.
Proof.
  assert (H : 0 <= current Sample.shown < len_pages Sample.shown Sample.shown_world)
    by (vm_compute; split; [discriminate | reflexivity]).
  split; [exact H|]. split; [|split].
  - exact (navigation_saturates (Sample.failing 8) NavNext Sample.shown
             Sample.shown_world H).
  - exact (navigation_saturates Sample.quiet NavPrevious Sample.shown
             Sample.shown_world H).
  - exact (navigation_saturates Sample.quiet NavLast Sample.shown
             Sample.shown_world H).
Defined.

(** ** [show_page] on a running session *)

(** X6. On a running session with a message on display, [show_page] at a
    valid index makes exactly one request, an edit of that message with the
    page, and posts nothing.  The cursor is moved before the edit is
    requested: when the edit fails the exception goes to the caller and the
    cursor stands at the new index all the same. *)
Theorem show_page_running_edits_base env s w i p b :
  running s = true ->
  base s = Some b ->
  0 <= i < len_pages s w ->
  pages_of s w !! Z.to_nat i = Some p ->
  show_page env i s w =
  (if fails env (length (trace w)) then Raise HTTPException else Ok tt,
   set_current i s,
   mkWorld (lists_rendered s w i p) (trace w ++ [Edit b (rendered s w i p)])).
Proof.
  intros Hrun Hb Hi%valid_page_spec Hp.
  rewrite (show_page_valid env s w i p Hi Hp). cbv zeta.
  by rewrite Hrun, Hb.
Qed.

Lemma show_page_running_edits_base_witness :
  let s := Sample.shown in
  let w := Sample.shown_world in
  let b := sent_message Sample.session Sample.three_pages "" in
  running s = true
  /\ base s = Some b
  /\ 0 <= 2 < len_pages s w
  /\ pages_of s w !! Z.to_nat 2 = Some (Sample.page "C")
  /\ show_page (Sample.failing 8) 2 s w =
     (Raise HTTPException, set_current 2 s,
      mkWorld (lists_rendered s w 2 (Sample.page "C"))
        (trace w ++ [Edit b (set_footer "Page 3/3" (Sample.page "C"))])).
Proof.
  cbv zeta.
  assert (H1 : running Sample.shown = true) by reflexivity.
  assert (H2 : base Sample.shown
               = Some (sent_message Sample.session Sample.three_pages ""))
    by reflexivity.
  assert (H3 : 0 <= 2 < len_pages Sample.shown Sample.shown_world)
    by (vm_compute; split; [discriminate | reflexivity]).
  assert (H4 : pages_of Sample.shown Sample.shown_world !! Z.to_nat 2
               = Some (Sample.page "C")) by reflexivity.
  repeat (split; [assumption|]).
  exact (show_page_running_edits_base (Sample.failing 8) Sample.shown
           Sample.shown_world 2 (Sample.page "C") _ H1 H2 H3 H4).
Defined.

(** X7. When the first [send] fails, [show_page] leaves the session with
    [running] true and no message on display; from then on every
    [show_page] at a valid index raises [AttributeError] without asking the
    transport for anything. *)
Theorem failed_first_send_leaves_no_base env env2 s w i j :
  running s = false ->
  base s = None ->
  0 <= i < len_pages s w ->
  0 <= j < len_pages s w ->
  fails env (length (trace w)) = true ->
  let s1 := (show_page env i s w).1.2 in
  let w1 := (show_page env i s w).2 in
  (show_page env i s w).1.1 = Raise HTTPException
  /\ running s1 = true
  /\ base s1 = None
  /\ (show_page env2 j s1 w1).1.1 = Raise AttributeError
  /\ trace (show_page env2 j s1 w1).2 = trace w1.
Proof.
  intros Hrun Hb Hi%valid_page_spec Hj Hf.
  destruct (valid_page_lookup s w i Hi) as [p Hp].
  rewrite (show_page_valid env s w i p Hi Hp). cbv zeta.
  rewrite Hrun, Hf. cbn [fst snd].
  split; [reflexivity|]. split; [reflexivity|]. split; [exact Hb|].
  set (s1 := set_running true (set_current i s)). set (w1 := extend _ _).
  assert (Hlen : len_pages s1 w1 = len_pages s w)
    by (by apply (len_pages_rendered s s1 w i p)).
  assert (Hj1 : valid_page s1 w1 j = true)
    by (apply valid_page_spec; by rewrite Hlen).
  destruct (valid_page_lookup s1 w1 j Hj1) as [q Hq].
  rewrite (show_page_valid env2 s1 w1 j q Hj1 Hq). cbv zeta.
  cbn [running base s1 set_running set_current]. rewrite Hb. by cbn.
Qed.

Lemma failed_first_send_leaves_no_base_witness :
  let s := Sample.session in
  let w := Sample.three_pages in
  running s = false
  /\ base s = None
  /\ 0 <= 0 < len_pages s w
  /\ 0 <= 1 < len_pages s w
  /\ fails (Sample.failing 0) (length (trace w)) = true
  /\ (show_page Sample.quiet 1 (show_page (Sample.failing 0) 0 s w).1.2
        (show_page (Sample.failing 0) 0 s w).2).1.1 = Raise AttributeError.
Proof.
  cbv zeta.
  assert (H1 : running Sample.session = false) by reflexivity.
  assert (H2 : base Sample.session = None) by reflexivity.
  assert (H3 : 0 <= 0 < len_pages Sample.session Sample.three_pages)
    by (vm_compute; split; [discriminate | reflexivity]).
  assert (H4 : 0 <= 1 < len_pages Sample.session Sample.three_pages)
    by (vm_compute; split; [discriminate | reflexivity]).
  assert (H5 : fails (Sample.failing 0) (length (trace Sample.three_pages)) = true)
    by reflexivity.
  repeat (split; [assumption|]).
  exact (proj1 (proj2 (proj2 (proj2
    (failed_first_send_leaves_no_base (Sample.failing 0) Sample.quiet
       Sample.session Sample.three_pages 0 1 H1 H2 H3 H4 H5))))).
Defined.

(** ** What [show_page] writes into the page list *)

(** X8. [show_page] writes nothing but footers: for every index and
    whatever the transport does, every list object has as many pages after
    the call as before, and every page of every list has the title, the
    description, the colour and the fields it had. *)
Theorem show_page_writes_footers_only env s w i l :
  let w' := (show_page env i s w).2 in
  length (lists w' !!! l) = length (lists w !!! l)
  /\ forall j p',
       (lists w' !!! l) !! j = Some p' ->
       exists p, (lists w !!! l) !! j = Some p
                 /\ embed_title p' = embed_title p
                 /\ embed_description p' = embed_description p
                 /\ embed_color p' = embed_color p
                 /\ embed_fields p' = embed_fields p.
Proof.
  cbv zeta. destruct (valid_page s w i) eqn:Hv.
  - destruct (valid_page_lookup s w i Hv) as [q Hq].
    destruct (show_page_valid_shape env s w i q Hv Hq) as (r & s' & t & -> & _).
    cbn [snd lists]. unfold lists_rendered, rendered.
    destruct (page_num_enabled s); [|split; [done | intros j p' Hp'; by exists p']].
    destruct (decide (l = pages s)) as [->|Hl].
    + rewrite lookup_total_insert_eq. fold (pages_of s w).
      split; [by rewrite length_insert|].
      intros j p' Hp'. destruct (decide (j = Z.to_nat i)) as [->|Hj].
      * rewrite list_lookup_insert_eq in Hp' by (by eapply lookup_lt_Some).
        injection Hp' as <-. exists q. by repeat split.
      * rewrite list_lookup_insert_ne in Hp' by done. exists p'. by repeat split.
    + rewrite lookup_total_insert_ne by done.
      split; [done | intros j p' Hp'; by exists p'].
  - rewrite show_page_invalid by done. cbn [snd].
    split; [done | intros j p' Hp'; by exists p'].
Qed.

Lemma show_page_writes_footers_only_witness :
  let w' := (show_page Sample.quiet 1 Sample.session Sample.three_pages).2 in
  (lists w' !!! Sample.abc) !! 1%nat = Some (set_footer "Page 2/3" (Sample.page "B"))
  /\ length (lists w' !!! Sample.abc) = length (lists Sample.three_pages !!! Sample.abc)
  /\ exists p, (lists Sample.three_pages !!! Sample.abc) !! 1%nat = Some p
               /\ embed_title (set_footer "Page 2/3" (Sample.page "B")) = embed_title p
               /\ embed_description (set_footer "Page 2/3" (Sample.page "B"))
                  = embed_description p
               /\ embed_color (set_footer "Page 2/3" (Sample.page "B")) = embed_color p
               /\ embed_fields (set_footer "Page 2/3" (Sample.page "B")) = embed_fields p.
Proof.
  cbv zeta.
  assert (H : (lists (show_page Sample.quiet 1 Sample.session Sample.three_pages).2
                 !!! Sample.abc) !! 1%nat
              = Some (set_footer "Page 2/3" (Sample.page "B")))
    by (vm_compute; reflexivity).
  split; [exact H|]. split.
  - exact (proj1 (show_page_writes_footers_only Sample.quiet Sample.session
                    Sample.three_pages 1 Sample.abc)).
  - exact (proj2 (show_page_writes_footers_only Sample.quiet Sample.session
                    Sample.three_pages 1 Sample.abc) 1%nat _ H).
Defined.

(** X9. With page numbering off, [show_page] writes nothing into any page
    list, and a call that returns normally has put the page on display as
    it is stored. *)
Theorem show_page_without_numbers env s w i p :
  page_num_enabled s = false ->
  0 <= i < len_pages s w ->
  pages_of s w !! Z.to_nat i = Some p ->
  lists (show_page env i s w).2 = lists w
  /\ ((show_page env i s w).1.1 = Ok tt ->
      displayed (trace (show_page env i s w).2) = Some p).
Proof.
  intros Hnum Hi%valid_page_spec Hp.
  destruct (show_page_valid_shape env s w i p Hi Hp)
    as (r & s' & t & -> & _ & _ & _ & _ & Hok).
  cbn [fst snd lists trace]. unfold lists_rendered. rewrite Hnum.
  split; [reflexivity|]. intros Hr. destruct (Hok Hr) as [_ Hd].
  rewrite Hd. unfold rendered. by rewrite Hnum.
Qed.

Lemma show_page_without_numbers_witness :
  let s := __init__ Sample.invoker None (Some Sample.abc) (Some false) None in
  let w := Sample.three_pages in
  page_num_enabled s = false
  /\ 0 <= 1 < len_pages s w
  /\ pages_of s w !! Z.to_nat 1 = Some (Sample.page "B")
  /\ lists (show_page Sample.quiet 1 s w).2 = lists w.
Proof.
  cbv zeta.
  set (s := __init__ Sample.invoker None (Some Sample.abc) (Some false) None).
  assert (H1 : page_num_enabled s = false) by reflexivity.
  assert (H2 : 0 <= 1 < len_pages s Sample.three_pages)
    by (vm_compute; split; [discriminate | reflexivity]).
  assert (H3 : pages_of s Sample.three_pages !! Z.to_nat 1 = Some (Sample.page "B"))
    by reflexivity.
  repeat (split; [assumption|]).
  exact (proj1 (show_page_without_numbers Sample.quiet s Sample.three_pages 1
                  (Sample.page "B") H1 H2 H3)).
Defined.

(** ** The help page *)

Lemma append_assoc (a b c : string) : (a +:+ b) +:+ c = a +:+ (b +:+ c).
Proof.
  induction a as [|x a IH]; [reflexivity|].
  change (String x ((a +:+ b) +:+ c) = String x (a +:+ b +:+ c)). by rewrite IH.
Qed.

Lemma append_empty_r (a : string) : a +:+ "" = a.
Proof.
  induction a as [|x a IH]; [reflexivity|].
  change (String x (a +:+ "") = String x a). by rewrite IH.
Qed.

Lemma help_text_from (d : list (string * Callback)) : forall acc,
  fold_left (fun help '(reaction, callback) =>
               help +:+ reaction +:+ " - " +:+ getdoc callback +:+ LF) d acc
  = acc +:+ String.concat "" (help_line <$> d).
Proof.
  induction d as [|[g cb] d IH]; intros acc; cbn [fold_left fmap list_fmap].
  - cbn. by rewrite append_empty_r.
  - rewrite IH. unfold help_line at 2. cbn [fst snd].
    destruct d as [|e d]; cbn [fmap list_fmap String.concat].
    + by rewrite append_empty_r.
    + rewrite (append_assoc acc). reflexivity.
Qed.

Lemma show_help_page_eq env s w b :
  base s = Some b ->
  show_help_page env s w =
  (if fails env (length (trace w)) then Raise HTTPException else Ok tt,
   s, extend w [Edit b (help_embed s w)]).
Proof.
  intros Hb. unfold show_help_page, help_embed, page_footer. unfold_m. rewrite Hb.
  destruct (page_num_enabled s); destruct (fails env (length (trace w)));
    reflexivity.
Qed.

(** X10. [show_help_page] asks once for an edit of the displayed message
    and changes neither the session (the cursor stands) nor any page list.
    The embed it shows has one field, whose text is one line
    "glyph - description" per entry of [reaction_map] in insertion order,
    and, with numbering on, the footer of the page under the cursor. *)
Theorem show_help_page_edits_base_only env s w b :
  base s = Some b ->
  show_help_page env s w =
  (if fails env (length (trace w)) then Raise HTTPException else Ok tt,
   s, extend w [Edit b (help_embed s w)])
  /\ embed_fields (help_embed s w) =
     [("Reactions?", String.concat "" (help_line <$> reaction_map s))]
  /\ (page_num_enabled s = true ->
      embed_footer (help_embed s w) =
      Some (mkFooter (Some ("Page " +:+ Py.str (current s + 1) +:+ "/" +:+
                            Py.str (len_pages s w))) None)).
Proof.
  intros Hb. split; [|split].
  - by apply show_help_page_eq.
  - unfold help_embed. cbn [embed_fields]. unfold help_text.
    by rewrite help_text_from.
  - intros Hnum. unfold help_embed. cbn [embed_footer]. by rewrite Hnum.
Qed.

Lemma show_help_page_edits_base_only_witness :
  let b := sent_message Sample.session Sample.three_pages "" in
  base Sample.shown = Some b
  /\ show_help_page Sample.quiet Sample.shown Sample.shown_world =
     (Ok tt, Sample.shown,
      extend Sample.shown_world [Edit b (help_embed Sample.shown Sample.shown_world)])
  /\ page_num_enabled Sample.shown = true
  /\ embed_footer (help_embed Sample.shown Sample.shown_world) =
     Some (mkFooter (Some "Page 1/3") None).
Proof.
  cbv zeta.
  assert (H : base Sample.shown
              = Some (sent_message Sample.session Sample.three_pages ""))
    by reflexivity.
  assert (Hn : page_num_enabled Sample.shown = true) by reflexivity.
  split; [exact H|]. split; [|split; [exact Hn|]].
  - exact (proj1 (show_help_page_edits_base_only Sample.quiet Sample.shown
                    Sample.shown_world _ H)).
  - rewrite (proj2 (proj2 (show_help_page_edits_base_only Sample.quiet Sample.shown
                             Sample.shown_world _ H)) Hn).
    vm_compute. reflexivity.
Defined.

(** X11. Without a message on display [show_help_page] raises
    [AttributeError] and asks the transport for nothing. *)
Theorem show_help_page_without_base env s w :
  base s = None ->
  show_help_page env s w = (Raise AttributeError, s, w).
Proof.
  intros Hb. unfold show_help_page. unfold_m. by rewrite Hb.
Qed.

Lemma show_help_page_without_base_witness :
  base Sample.session = None
  /\ show_help_page Sample.quiet Sample.session Sample.three_pages =
     (Raise AttributeError, Sample.session, Sample.three_pages).
Proof.
  assert (H : base Sample.session = None) by reflexivity.
  split; [exact H|].
  exact (show_help_page_without_base Sample.quiet Sample.session
           Sample.three_pages H).
Defined.

(** ** Adding pages *)

(** X12. After [add_page(e)] the list is one page longer, the old pages
    are where they were, the cursor has not moved, and the new page sits at
    the old length, which is now a valid index: [show_page] there, on a
    running session with numbering on, moves the cursor to it and edits the
    displayed message with [e] under the footer "Page n+1/n+1". *)
Theorem add_page_then_show env e s w b :
  running s = true ->
  base s = Some b ->
  page_num_enabled s = true ->
  let n := len_pages s w in
  let w1 := (add_page (VEmbed e) s w).2 in
  let s1 := (add_page (VEmbed e) s w).1.2 in
  s1 = s
  /\ len_pages s w1 = n + 1
  /\ (forall j p, pages_of s w !! j = Some p -> pages_of s w1 !! j = Some p)
  /\ valid_page s w n = false
  /\ valid_page s w1 n = true
  /\ current (show_page env n s w1).1.2 = n
  /\ trace (show_page env n s w1).2 =
     trace w ++ [Edit b (set_footer ("Page " +:+ Py.str (n + 1) +:+ "/" +:+
                                     Py.str (n + 1)) e)].
Proof.
  intros Hrun Hb Hnum. cbv zeta. cbn [add_page fst snd].
  set (w1 := mkWorld _ _).
  assert (Hp1 : pages_of s w1 = pages_of s w ++ [e])
    by (unfold pages_of at 1, w1; cbn [lists]; by rewrite lookup_total_insert_eq).
  assert (Hlen : len_pages s w1 = len_pages s w + 1)
    by (unfold len_pages; rewrite Hp1, length_app; cbn [length]; lia).
  assert (Hlook : pages_of s w1 !! Z.to_nat (len_pages s w) = Some e).
  { rewrite Hp1. unfold len_pages. rewrite Nat2Z.id.
    rewrite lookup_app_r by lia. by rewrite Nat.sub_diag. }
  assert (Hv : 0 <= len_pages s w < len_pages s w1)
    by (rewrite Hlen; unfold len_pages; lia).
  split; [reflexivity|]. split; [exact Hlen|]. split; [|split; [|split]].
  - intros j p Hj. rewrite Hp1. by apply lookup_app_l_Some.
  - apply valid_page_false. right. lia.
  - by apply valid_page_spec.
  - apply valid_page_spec in Hv.
    rewrite (show_page_valid env s w1 _ e Hv Hlook). cbv zeta.
    rewrite Hrun, Hb. cbn [fst snd trace extend]. split; [reflexivity|].
    unfold rendered, page_footer. by rewrite Hnum, Hlen.
Qed.

Lemma add_page_then_show_witness :
  let s := Sample.shown in
  let w := Sample.shown_world in
  let b := sent_message Sample.session Sample.three_pages "" in
  running s = true
  /\ base s = Some b
  /\ page_num_enabled s = true
  /\ trace (show_page Sample.quiet 3 s (add_page (VEmbed (Sample.page "D")) s w).2).2 =
     trace w ++ [Edit b (set_footer "Page 4/4" (Sample.page "D"))].
Proof.
  cbv zeta.
  assert (H1 : running Sample.shown = true) by reflexivity.
  assert (H2 : base Sample.shown
               = Some (sent_message Sample.session Sample.three_pages ""))
    by reflexivity.
  assert (H3 : page_num_enabled Sample.shown = true) by reflexivity.
  repeat (split; [assumption|]).
  pose proof (proj2 (proj2 (proj2 (proj2 (proj2 (proj2
    (add_page_then_show Sample.quiet (Sample.page "D") Sample.shown
       Sample.shown_world _ H1 H2 H3))))))) as H.
  change (len_pages Sample.shown Sample.shown_world) with 3 in H.
  exact H.
Defined.

(** X13. Sessions over different list objects do not see each other's
    pages: [add_page] on one leaves the pages of the other as they were.
    (Two sessions share pages exactly when they hold the same list object,
    as they do when both are built without [pages].) *)
Theorem add_page_other_list_untouched doc s1 s2 w :
  pages s1 <> pages s2 ->
  pages_of s2 (add_page doc s1 w).2 = pages_of s2 w.
Proof.
  intros Hne. destruct doc; try reflexivity.
  unfold pages_of. cbn [add_page snd lists].
  by rewrite lookup_total_insert_ne.
Qed.

Lemma add_page_other_list_untouched_witness :
  pages Sample.session <> pages Sample.other_session
  /\ pages_of Sample.other_session
       (add_page (VEmbed (Sample.page "D")) Sample.session Sample.three_pages).2
     = pages_of Sample.other_session Sample.three_pages.
Proof.
  assert (H : pages Sample.session <> pages Sample.other_session)
    by (vm_compute; discriminate).
  split; [exact H|].
  exact (add_page_other_list_untouched (VEmbed (Sample.page "D")) Sample.session
           Sample.other_session Sample.three_pages H).
Defined.

(** ** The loop of [run] *)

Lemma run_loop_stopped env fuel s w :
  running s = false -> run_loop env fuel s w = (Ok tt, s, w).
Proof.
  intros Hrun. destruct fuel; cbn [run_loop]; unfold_m; by rewrite Hrun.
Qed.

Lemma run_loop_accepted env fuel s w reaction user :
  running s = true ->
  wait_scan (react_check s) (reactions env (length (trace w))) = inr (reaction, user) ->
  run_loop env (S fuel) s w =
  (_ <- attempt (b <- get_base;;
                 request env (RemoveReaction b (reaction_emoji reaction) user));;
   s' <- get_self;;
   co <- call env (dict_get (reaction_map s') (reaction_emoji reaction));;
   await co;;;
   run_loop env fuel) s (extend w [WaitReaction (timeout s)]).
Proof.
  intros Hrun Hwait. cbn [run_loop]. unfold bind at 1. cbn [get_self].
  rewrite Hrun. unfold bind at 1. unfold attempt at 1, wait_for_reaction.
  rewrite Hwait. reflexivity.
Qed.

Lemma wait_scan_accepted {E} (check : E -> Exn + bool) evs ev :
  wait_scan check evs = inr ev -> check ev = inr true.
Proof.
  induction evs as [|x evs IH]; cbn [wait_scan]; [discriminate|].
  destruct (check x) as [e|[]] eqn:Hx; [discriminate | | exact IH].
  intros [= <-]. exact Hx.
Qed.

Lemma wait_scan_raises {E} (check : E -> Exn + bool) evs e :
  wait_scan check evs = inl e ->
  e = TimeoutError \/ exists ev, ev ∈ evs /\ check ev = inl e.
Proof.
  induction evs as [|x evs IH]; cbn [wait_scan].
  - intros [= <-]. by left.
  - destruct (check x) as [e'|[]] eqn:Hx; [| discriminate |].
    + intros [= <-]. right. exists x. split; [apply list_elem_of_here | exact Hx].
    + intros H. destruct (IH H) as [?|(ev & ? & ?)]; [by left|].
      right. exists ev. split; [by apply list_elem_of_further | done].
Qed.

(** X14. [run] on a session with no pages returns at once, for any fuel:
    [show_page(0)] is out of range, [running] stays false, the loop is not
    entered, nothing is sent and no event is waited for. *)
Theorem run_without_pages_does_nothing env fuel s w :
  running s = false ->
  pages_of s w = [] ->
  run env fuel s w = (Ok tt, s, w).
Proof.
  intros Hrun Hnil. unfold run. unfold bind at 1. cbn [get_self].
  rewrite Hrun. cbn [negb]. unfold bind at 1.
  rewrite show_page_invalid.
  - by apply run_loop_stopped.
  - apply valid_page_false. right. unfold len_pages. rewrite Hnil. cbn. lia.
Qed.

Lemma run_without_pages_does_nothing_witness :
  running Sample.session = false
  /\ pages_of Sample.session Sample.no_pages = []
  /\ run Sample.quiet 0 Sample.session Sample.no_pages =
     (Ok tt, Sample.session, Sample.no_pages).
Proof.
  assert (H1 : running Sample.session = false) by reflexivity.
  assert (H2 : pages_of Sample.session Sample.no_pages = []) by reflexivity.
  split; [exact H1|]. split; [exact H2|].
  exact (run_without_pages_does_nothing Sample.quiet 0 Sample.session
           Sample.no_pages H1 H2).
Defined.

(** X15. When the reaction the wait returns is the stop glyph of the
    constructor's controls, the turn asks for the removal of the reaction
    (a failure of that is ignored), clears [running], asks for the deletion
    of the displayed message, and the loop ends there, for any fuel.  A
    failure of the deletion is not caught: it leaves [run] as
    [HTTPException], with [running] already false. *)
Theorem stop_reaction_ends_loop env fuel s w b reaction user :
  running s = true ->
  base s = Some b ->
  reaction_map s = controls ->
  wait_scan (react_check s) (reactions env (length (trace w))) = inr (reaction, user) ->
  reaction_emoji reaction = "⏹" ->
  run_loop env (S fuel) s w =
  (if fails env (S (S (length (trace w)))) then Raise HTTPException else Ok tt,
   set_running false s,
   extend w [WaitReaction (timeout s); RemoveReaction b "⏹" user; Delete b]).
Proof.
  intros Hrun Hb Hmap Hwait Hstop.
  rewrite (run_loop_accepted env fuel s w reaction user Hrun Hwait).
  unfold bind at 1. unfold attempt at 1. unfold bind at 1. unfold get_base at 1.
  unfold bind at 1. cbn [get_self]. rewrite Hb, Hstop.
  unfold request at 1. cbn [extend trace lists].
  assert (Hstep : forall w1,
            length (trace w1) = S (S (length (trace w))) ->
            (s' <- get_self;;
             co <- call env (dict_get (reaction_map s') "⏹");;
             await co;;;
             run_loop env fuel) s w1 =
            (if fails env (S (S (length (trace w)))) then Raise HTTPException else Ok tt,
             set_running false s, extend w1 [Delete b])).
  { intros w1 Hlen. unfold bind at 1. cbn [get_self]. rewrite Hmap.
    change (dict_get controls "⏹") with (Some cb_close). cbn [call].
    unfold close. unfold_m. cbn [base set_running]. rewrite Hb, Hlen.
    destruct (fails env (S (S (length (trace w))))); [reflexivity|].
    by rewrite run_loop_stopped. }
  unfold ret at 1. cbv beta iota zeta. cbn [extend trace lists].
  destruct (fails env (length (trace w ++ [WaitReaction (timeout s)])));
    cbv beta iota zeta;
    (rewrite Hstep by (cbn [trace]; rewrite !length_app; cbn; lia));
    unfold extend; cbn [trace lists]; by rewrite <- !app_assoc.
Qed.

Lemma stop_reaction_ends_loop_witness :
  let s := Sample.shown in
  let w := Sample.shown_world in
  let b := sent_message Sample.session Sample.three_pages "" in
  let env := Sample.reacts 8 "⏹" 0%nat in
  running s = true
  /\ base s = Some b
  /\ reaction_map s = controls
  /\ wait_scan (react_check s) (reactions env (length (trace w)))
     = inr (mkReaction "⏹" 0%nat, 7%nat)
  /\ run_loop env 1 s w =
     (Ok tt, set_running false s,
      extend w [WaitReaction 60; RemoveReaction b "⏹" 7%nat; Delete b]).
Proof.
  cbv zeta.
  assert (H1 : running Sample.shown = true) by reflexivity.
  assert (H2 : base Sample.shown
               = Some (sent_message Sample.session Sample.three_pages ""))
    by reflexivity.
  assert (H3 : reaction_map Sample.shown = controls) by reflexivity.
  assert (H4 : wait_scan (react_check Sample.shown)
                 (reactions (Sample.reacts 8 "⏹" 0%nat)
                    (length (trace Sample.shown_world)))
               = inr (mkReaction "⏹" 0%nat, 7%nat)) by reflexivity.
  repeat (split; [assumption|]).
  exact (stop_reaction_ends_loop (Sample.reacts 8 "⏹" 0%nat) 0 Sample.shown
           Sample.shown_world _ (mkReaction "⏹" 0%nat) 7%nat H1 H2 H3 H4 eq_refl).
Defined.

(** ** What the loop keeps *)

Section Keeps.

Context (I : PaginatorSession -> World -> Prop) (E : Exn -> Prop).

Lemma keeps_ret {A} (a : A) (V : A -> Prop) : V a -> keeps I E (ret a) V.
Proof. intros Ha s w Hi. by split. Qed.

Lemma keeps_raise {A} e (V : A -> Prop) : E e -> keeps I E (raise e) V.
Proof. intros He s w Hi. by split. Qed.

Lemma keeps_bind {A B} (m : M A) (k : A -> M B) (V : A -> Prop) (V' : B -> Prop) :
  keeps I E m V ->
  (forall a, V a -> keeps I E (k a) V') ->
  keeps I E (bind m k) V'.
Proof.
  intros Hm Hk s w Hi. specialize (Hm s w Hi). unfold bind.
  destruct (m s w) as [[[a|e|] s1] w1]; cbn [fst snd] in *;
    destruct Hm as [Hi1 Hv]; [|done..].
  by apply Hk.
Qed.

Lemma keeps_get_self : keeps I E get_self (fun _ => True).
Proof. intros s w Hi. by split. Qed.

Lemma keeps_get_world : keeps I E get_world (fun _ => True).
Proof. intros s w Hi. by split. Qed.

Lemma keeps_modify_self f :
  (forall s w, I s w -> I (f s) w) -> keeps I E (modify_self f) (fun _ => True).
Proof. intros Hf s w Hi. split; [by apply Hf | done]. Qed.

Lemma keeps_request env r :
  (forall s w, I s w -> I s (extend w [r])) ->
  E HTTPException ->
  keeps I E (request env r) (fun _ => True).
Proof.
  intros Hr He s w Hi. unfold request.
  destruct (fails env (length (trace w))); cbn [fst snd]; split; auto;
    by apply Hr.
Qed.

Lemma keeps_ctx_send env c :
  (forall s w, I s w -> I s (extend w [Send c])) ->
  E HTTPException ->
  keeps I E (ctx_send env c) (fun _ => True).
Proof.
  intros Hr He. unfold ctx_send.
  eapply keeps_bind; [by apply keeps_request|]. intros n _.
  eapply keeps_bind; [apply keeps_get_self|]. intros s _.
  by apply keeps_ret.
Qed.

Lemma keeps_sleep secs :
  (forall s w, I s w -> I s (extend w [Sleep secs])) ->
  keeps I E (sleep secs) (fun _ => True).
Proof. intros Hr s w Hi. split; [by apply Hr | done]. Qed.

Lemma keeps_wait_for_message env check timeout :
  (forall s w, I s w -> I s (extend w [WaitMessage timeout])) ->
  (forall e, (exists m, check m = inl e) -> E e) ->
  E TimeoutError ->
  keeps I E (wait_for_message env check timeout) (fun _ => True).
Proof.
  intros Hr Hc He s w Hi. unfold wait_for_message.
  destruct (wait_scan check _) as [e|m] eqn:Hw; cbn [fst snd];
    (split; [by apply Hr|]); [|done].
  destruct (wait_scan_raises _ _ _ Hw) as [->|(ev & _ & Hev)]; [done|].
  apply Hc. eauto.
Qed.

End Keeps.

Lemma keeps_attempt {A} I (E E' : Exn -> Prop) (m : M A) (V : A -> Prop) :
  keeps I E' m V ->
  keeps I E (attempt m)
    (fun r => match r with inl e => E' e | inr a => V a end).
Proof.
  intros Hm s w Hi. specialize (Hm s w Hi). unfold attempt.
  by destruct (m s w) as [[[a|e|] s1] w1].
Qed.

Lemma keeps_weaken {A} I (E E' : Exn -> Prop) (m : M A) (V V' : A -> Prop) :
  (forall e, E e -> E' e) ->
  (forall a, V a -> V' a) ->
  keeps I E m V -> keeps I E' m V'.
Proof.
  intros He Hv Hm s w Hi. destruct (Hm s w Hi) as [Hi1 Hr].
  split; [done|]. destruct ((m s w).1.1); auto.
Qed.

Lemma page_sends_snoc t r :
  page_sends (t ++ [r]) = (page_sends t + if is_page_send r then 1 else 0)%nat.
Proof.
  unfold page_sends. rewrite filter_app, length_app, filter_cons.
  destruct (is_page_send r); [rewrite decide_True by done
                             |rewrite decide_False by done]; reflexivity.
Qed.

Lemma foreign_edits_snoc b t r :
  foreign_edits b (t ++ [r]) =
  (foreign_edits b t + if is_foreign_edit b r then 1 else 0)%nat.
Proof.
  unfold foreign_edits. rewrite filter_app, length_app, filter_cons.
  destruct (is_foreign_edit b r); [rewrite decide_True by done
                                  |rewrite decide_False by done]; reflexivity.
Qed.

(** A request that posts no page and edits nothing but [b] can be added. *)
Lemma loop_inv_extend b p n j k s w r :
  is_page_send r = false ->
  is_foreign_edit b r = false ->
  loop_inv b p n j k s w -> loop_inv b p n j k s (extend w [r]).
Proof.
  intros Hs He (Hb & Hp & Hn & Hc & Hj & Hk). unfold loop_inv, extend.
  cbn [trace]. rewrite page_sends_snoc, foreign_edits_snoc, Hs, He.
  repeat split; auto; lia.
Qed.

Lemma running_inv_extend b p n j k s w r :
  is_page_send r = false ->
  is_foreign_edit b r = false ->
  running_inv b p n j k s w -> running_inv b p n j k s (extend w [r]).
Proof.
  intros Hs He [Hi Hrun]. split; [by apply loop_inv_extend | done].
Qed.

Lemma is_foreign_edit_own b e : is_foreign_edit b (Edit b e) = false.
Proof. cbn. by rewrite bool_decide_eq_true_2. Qed.

Section LoopInvariant.

Context (env : Env) (b : Message) (p : loc) (n : Z) (j k : nat).

Lemma keeps_show_page i :
  keeps (running_inv b p n j k) transport_error (show_page env i) (fun _ => True).
Proof.
  intros s w [(Hb & Hp & Hn & Hc & Hj & Hk) Hrun].
  destruct (valid_page s w i) eqn:Hv.
  - destruct (valid_page_lookup s w i Hv) as [q Hq].
    rewrite (show_page_valid env s w i q Hv Hq). cbv zeta.
    rewrite Hrun, Hb. unfold extend. cbn [fst snd trace lists]. split.
    + split; [|exact Hrun]. unfold loop_inv. cbn [base pages current set_current trace].
      rewrite (len_pages_rendered s (set_current i s) w i q _ eq_refl Hq).
      rewrite page_sends_snoc, foreign_edits_snoc, is_foreign_edit_own.
      cbn [is_page_send]. apply valid_page_spec in Hv.
      repeat split; auto; lia.
    + by destruct (fails env (length (trace w))).
  - rewrite show_page_invalid by done. cbn [fst snd].
    split; [|done]. split; [|exact Hrun]. repeat split; auto; lia.
Qed.

Lemma keeps_show_help_page :
  keeps (running_inv b p n j k) transport_error (show_help_page env) (fun _ => True).
Proof.
  intros s w Hi. pose proof Hi as [(Hb & _) _].
  rewrite (show_help_page_eq env s w b Hb). cbn [fst snd].
  split.
  - apply running_inv_extend; [reflexivity | apply is_foreign_edit_own | exact Hi].
  - by destruct (fails env (length (trace w))).
Qed.

Lemma keeps_ask_for_page :
  keeps (running_inv b p n j k) transport_or_parse_error (ask_for_page env)
        (fun _ => True).
Proof.
  assert (Hhttp : transport_or_parse_error HTTPException) by (by left).
  assert (Hsend : forall t,
            keeps (running_inv b p n j k)
                  (fun e => transport_or_parse_error e)
                  (ctx_send env (CText t)) (fun _ => True)).
  { intros t. apply keeps_ctx_send; [|exact Hhttp].
    intros s w. by apply running_inv_extend. }
  unfold ask_for_page.
  eapply keeps_bind; [apply Hsend|]. intros x _.
  eapply keeps_bind; [apply keeps_get_self|]. intros s0 _.
  eapply keeps_bind.
  { apply (keeps_attempt _ _ (fun e => e = TimeoutError)).
    apply keeps_wait_for_message; [|by intros e [m [=]] | done].
    intros s w. by apply running_inv_extend. }
  intros r Hr.
  eapply keeps_bind with (V := fun _ => True).
  - destruct r as [e|msg].
    + cbn in Hr. subst e.
      eapply keeps_bind; [apply Hsend|]. intros y _. by apply keeps_ret.
    + eapply keeps_bind with (V := fun _ => True).
      { unfold py_int. destruct (Py.int (unicode env) (msg_content msg));
          [by apply keeps_ret | apply keeps_raise; by right]. }
      intros page _.
      eapply keeps_bind; [apply keeps_get_self|]. intros s1 _.
      eapply keeps_bind; [apply keeps_get_world|]. intros w1 _.
      destruct (negb (page =? 0) && (page <=? len_pages s1 w1)).
      * eapply keeps_bind; [|intros; by apply keeps_ret].
        eapply keeps_weaken; [| |apply keeps_show_page]; [|done].
        intros e ->. exact Hhttp.
      * eapply keeps_bind; [apply Hsend|]. intros y _. by apply keeps_ret.
  - intros to_delete _.
    eapply keeps_bind; [|intros; by apply keeps_ret].
    apply (keeps_attempt _ _ transport_or_parse_error).
    eapply keeps_bind.
    + apply keeps_sleep. intros s w. by apply running_inv_extend.
    + intros _ _. apply keeps_request; [|exact Hhttp].
      intros s w. by apply running_inv_extend.
Qed.

(** An action of [reaction_map], called and awaited, keeps the invariant;
    only [close] ends the running state. *)
Lemma callback_keeps cb s w :
  running_inv b p n j k s w ->
  let r := (co <- call env (Some cb);; await co) s w in
  loop_inv b p n j k r.1.2 r.2
  /\ only_raises transport_or_parse_error r.1.1.
Proof.
  intros Hi. cbv zeta.
  assert (Hshow : forall i,
            loop_inv b p n j k (show_page env i s w).1.2 (show_page env i s w).2
            /\ only_raises transport_or_parse_error (show_page env i s w).1.1).
  { intros i. destruct (keeps_show_page i s w Hi) as [[Hl _] Hr].
    split; [exact Hl|]. destruct ((show_page env i s w).1.1); cbn; auto.
    left. exact Hr. }
  destruct cb.
  - apply (Hshow 0).
  - apply (Hshow (current s - 1)).
  - destruct Hi as [Hl Hrun]. pose proof Hl as (Hb & Hp & Hn & Hc & Hj & Hk).
    unfold call, close. unfold_m. cbn [base set_running]. rewrite Hb.
    destruct (fails env (length (trace w))); cbn [fst snd];
      (split;
       [by apply (loop_inv_extend b p n j k (set_running false s) w (Delete b))
       |cbn; auto; by left]).
  - apply (Hshow (current s + 1)).
  - apply (Hshow (len_pages s w - 1)).
  - destruct (keeps_ask_for_page s w Hi) as [[Hl _] Hr].
    change ((co <- call env (Some cb_ask_for_page);; await co) s w)
      with (ask_for_page env s w).
    split; [exact Hl|]. by destruct ((ask_for_page env s w).1.1).
  - destruct (keeps_show_help_page s w Hi) as [[Hl _] Hr].
    change ((co <- call env (Some cb_show_help_page);; await co) s w)
      with (show_help_page env s w).
    split; [exact Hl|]. destruct ((show_help_page env s w).1.1); cbn; auto.
    left. exact Hr.
Qed.

End LoopInvariant.

Lemma bind_assoc {A B C} (m : M A) (f : A -> M B) (g : B -> M C) s w :
  bind (bind m f) g s w = bind m (fun a => bind (f a) g) s w.
Proof. unfold bind. by destruct (m s w) as [[[a|e|] s1] w1]. Qed.

Lemma run_loop_raised env fuel s w e :
  running s = true ->
  wait_scan (react_check s) (reactions env (length (trace w))) = inl e ->
  run_loop env (S fuel) s w =
  match e with
  | TimeoutError =>
      (modify_self (set_paginating false);;;
       _ <- attempt (b <- get_base;; request env (ClearReactions b));;
       ret tt) s (extend w [WaitReaction (timeout s)])
  | _ => (Raise e, s, extend w [WaitReaction (timeout s)])
  end.
Proof.
  intros Hrun Hwait. cbn [run_loop]. unfold bind at 1. cbn [get_self].
  rewrite Hrun. unfold bind at 1. unfold attempt at 1, wait_for_reaction.
  rewrite Hwait. by destruct e.
Qed.

(** The loop of [run] keeps [loop_inv] and lets through only a transport
    failure or a reply that [int] cannot parse. *)
Lemma run_loop_keeps env fuel b p n j k : forall s w,
  loop_inv b p n j k s w ->
  loop_inv b p n j k (run_loop env fuel s w).1.2 (run_loop env fuel s w).2
  /\ only_raises transport_or_parse_error (run_loop env fuel s w).1.1.
Proof.
  induction fuel as [|fuel IH]; intros s w Hi;
    destruct (running s) eqn:Hrun;
    try (rewrite run_loop_stopped by done; by split).
  - cbn [run_loop]. unfold_m. rewrite Hrun. by split.
  - pose proof Hi as (Hb & _).
    assert (Hw1 : loop_inv b p n j k s (extend w [WaitReaction (timeout s)]))
      by (by apply loop_inv_extend).
    destruct (wait_scan (react_check s) (reactions env (length (trace w))))
      as [e|[reaction user]] eqn:Hwait.
    + rewrite (run_loop_raised env fuel s w e Hrun Hwait).
      destruct (wait_scan_raises _ _ _ Hwait) as [->|(ev & _ & Hev)];
        [|by apply (react_check_raises s b ev e Hb) in Hev].
      unfold_m. cbn [base set_paginating]. rewrite Hb.
      destruct (fails env _); cbn [fst snd]; (split; [|done]);
        by apply (loop_inv_extend b p n j k (set_paginating false s) _
                    (ClearReactions b)).
    + pose proof (wait_scan_accepted _ _ _ Hwait) as Hacc.
      destruct (proj1 (dict_get_keys _ _) (react_check_key _ _ _ Hacc)) as [cb Hcb].
      set (w2 := extend (extend w [WaitReaction (timeout s)])
                   [RemoveReaction b (reaction_emoji reaction) user]).
      set (m := (co <- call env (Some cb);; await co)).
      assert (Heq : run_loop env (S fuel) s w =
                    bind m (fun _ => run_loop env fuel) s w2).
      { rewrite (run_loop_accepted env fuel s w reaction user Hrun Hwait).
        unfold bind at 1. unfold attempt at 1. unfold bind at 1, get_base at 1.
        unfold bind at 1. cbn [get_self]. rewrite Hb. unfold ret at 1.
        cbv beta iota zeta. unfold request at 1.
        destruct (fails env _); cbv beta iota zeta;
          unfold bind at 1; cbn [get_self]; rewrite Hcb;
          unfold m; by rewrite bind_assoc. }
      rewrite Heq.
      assert (Hw2 : running_inv b p n j k s w2).
      { split; [|exact Hrun].
        by apply (loop_inv_extend b p n j k s _
                    (RemoveReaction b (reaction_emoji reaction) user)). }
      destruct (callback_keeps env b p n j k cb s w2 Hw2) as [Hl Hr].
      fold m in Hl, Hr. unfold bind.
      destruct (m s w2) as [[[a|e|] s3] w3];
        cbn [fst snd] in *; [by apply IH | by split | by split].
Qed.

Lemma page_sends_reactions t m ks :
  page_sends (t ++ (AddReaction m <$> ks)) = page_sends t.
Proof.
  induction ks as [|x ks IH] using rev_ind; [by rewrite app_nil_r|].
  rewrite fmap_app, app_assoc. cbn [fmap list_fmap].
  rewrite page_sends_snoc, IH. cbn. lia.
Qed.

Lemma foreign_edits_reactions b t m ks :
  foreign_edits b (t ++ (AddReaction m <$> ks)) = foreign_edits b t.
Proof.
  induction ks as [|x ks IH] using rev_ind; [by rewrite app_nil_r|].
  rewrite fmap_app, app_assoc. cbn [fmap list_fmap].
  rewrite foreign_edits_snoc, IH. cbn. lia.
Qed.

(** X16. [run] on a session that is already running, with a message [b] on
    display and the cursor inside the page list, does not render again; for
    every behaviour of the user and of the transport and every fuel, when it
    stops the displayed message is still [b], the page list is the same
    object of the same length, the cursor is inside it, no page was posted
    as a new message and no message other than [b] was edited.  The only
    exceptions that leave it are a transport failure or a reply that [int]
    cannot parse. *)
Theorem run_resumed_keeps_display env fuel b p n j k s w :
  running s = true ->
  loop_inv b p n j k s w ->
  loop_inv b p n j k (run env fuel s w).1.2 (run env fuel s w).2
  /\ only_raises transport_or_parse_error (run env fuel s w).1.1.
Proof.
  intros Hrun Hi.
  assert (Heq : run env fuel s w = run_loop env fuel s w).
  { unfold run. unfold bind at 1. cbn [get_self]. rewrite Hrun. reflexivity. }
  rewrite Heq. by apply run_loop_keeps.
Qed.

Lemma run_resumed_keeps_display_witness :
  let b := sent_message Sample.session Sample.three_pages "" in
  let env := Sample.reacts 8 "▶" 0%nat in
  running Sample.shown = true
  /\ loop_inv b Sample.abc 3 1 0 Sample.shown Sample.shown_world
  /\ loop_inv b Sample.abc 3 1 0
       (run env 5 Sample.shown Sample.shown_world).1.2
       (run env 5 Sample.shown Sample.shown_world).2
  /\ only_raises transport_or_parse_error
       (run env 5 Sample.shown Sample.shown_world).1.1.
Proof.
  cbv zeta.
  assert (H1 : running Sample.shown = true) by reflexivity.
  assert (H2 : loop_inv (sent_message Sample.session Sample.three_pages "")
                 Sample.abc 3 1 0 Sample.shown Sample.shown_world).
  { unfold loop_inv. repeat split; try (vm_compute; reflexivity).
    vm_compute. discriminate. }
  split; [exact H1|]. split; [exact H2|].
  exact (run_resumed_keeps_display (Sample.reacts 8 "▶" 0%nat) 5 _ _ _ _ _
           Sample.shown Sample.shown_world H1 H2).
Defined.

(** X17. [run] on a session that is not running and has at least one page
    makes exactly one request to post a page, for every behaviour of the
    user and of the transport and every fuel.  When that first send fails,
    nothing is posted: [run] raises [HTTPException] having requested nothing
    else, and the session has the [base] it had.  When it succeeds, the
    message it returned is the displayed message of the session when [run]
    stops, and every edit [run] made was an edit of that message.  Either
    way the page list keeps its length, the cursor ends inside it, and only
    a transport failure or a reply that [int] cannot parse leaves [run] as
    an exception. *)
Theorem run_requests_one_page_send env fuel s w :
  running s = false ->
  0 < len_pages s w ->
  let r := run env fuel s w in
  let b := sent_message s w "" in
  page_sends (trace r.2) = S (page_sends (trace w))
  /\ len_pages r.1.2 r.2 = len_pages s w
  /\ 0 <= current r.1.2 < len_pages s w
  /\ only_raises transport_or_parse_error r.1.1
  /\ (fails env (length (trace w)) = true ->
      r.1.1 = Raise HTTPException
      /\ base r.1.2 = base s
      /\ length (trace r.2) = S (length (trace w)))
  /\ (fails env (length (trace w)) = false ->
      base r.1.2 = Some b
      /\ foreign_edits b (trace r.2) = foreign_edits b (trace w)).
Proof.
  intros Hrun Hlen. cbv zeta.
  assert (Hv : valid_page s w 0 = true) by (apply valid_page_spec; lia).
  destruct (valid_page_lookup s w 0 Hv) as [q Hq].
  assert (Heq : run env fuel s w = bind (show_page env 0) (fun _ => run_loop env fuel) s w).
  { unfold run. unfold bind at 1. cbn [get_self]. by rewrite Hrun. }
  rewrite Heq. unfold bind.
  rewrite (show_page_valid env s w 0 q Hv Hq). cbv zeta. rewrite Hrun.
  set (b := sent_message s w "").
  set (s1 := set_current 0 s).
  set (w1 := mkWorld (lists_rendered s w 0 q) (trace w)).
  assert (Hlen1 : forall s' t, pages s' = pages s ->
            len_pages s' (mkWorld (lists_rendered s w 0 q) t) = len_pages s w)
    by (intros s' t Hs'; by apply len_pages_rendered).
  destruct (fails env (length (trace w))).
  - unfold extend, w1. cbn [fst snd trace lists].
    rewrite page_sends_snoc. cbn [is_page_send].
    rewrite (Hlen1 (set_running true s1) _ eq_refl).
    unfold s1. cbn [current base set_running set_current].
    repeat split; try lia; try done.
    + by left.
    + rewrite length_app. cbn. lia.
  - set (s2 := set_base b (set_running true s1)).
    destruct (attach_loop env (keys (reaction_map s)) s2
                (extend w1 [Send (CEmbed (rendered s w 0 q))]) b eq_refl)
      as (r & ks' & -> & _ & Hr & _).
    rewrite extend_extend. cbn [app].
    assert (Hinv : loop_inv b (pages s) (len_pages s w) (S (page_sends (trace w)))
                     (foreign_edits b (trace w)) s2
                     (extend w1 (Send (CEmbed (rendered s w 0 q))
                                 :: (AddReaction b <$> ks')))).
    { unfold loop_inv, extend, w1. cbn [trace lists].
      rewrite (Hlen1 s2 _ eq_refl).
      change (trace w ++ ?x :: ?l) with (trace w ++ [x] ++ l).
      rewrite app_assoc, page_sends_reactions, foreign_edits_reactions.
      rewrite page_sends_snoc, foreign_edits_snoc.
      cbn [is_page_send is_foreign_edit]. unfold s2, s1.
      cbn [current set_base set_running set_current base pages].
      repeat split; lia. }
    destruct Hr as [-> | ->].
    + destruct (run_loop_keeps env fuel _ _ _ _ _ _ _ Hinv)
        as [(Hb & _ & Hn & Hc & Hj & Hk) Hex].
      repeat split; auto; try lia; discriminate.
    + cbn [fst snd]. destruct Hinv as (Hb & _ & Hn & Hc & Hj & Hk).
      repeat split; auto; try lia; try discriminate. by left.
Qed.

Lemma run_requests_one_page_send_witness :
  let r := run (Sample.reacts 8 "🤔" 0%nat) 5 Sample.session Sample.three_pages in
  let f := run (Sample.failing 0) 5 Sample.session Sample.three_pages in
  running Sample.session = false
  /\ 0 < len_pages Sample.session Sample.three_pages
  /\ fails (Sample.reacts 8 "🤔" 0%nat) (length (trace Sample.three_pages)) = false
  /\ fails (Sample.failing 0) (length (trace Sample.three_pages)) = true
  /\ page_sends (trace r.2) = S (page_sends (trace Sample.three_pages))
  /\ base r.1.2 = Some (sent_message Sample.session Sample.three_pages "")
  /\ f.1.1 = Raise HTTPException
  /\ base f.1.2 = base Sample.session.
Proof.
  cbv zeta.
  assert (H1 : running Sample.session = false) by reflexivity.
  assert (H2 : 0 < len_pages Sample.session Sample.three_pages)
    by (vm_compute; reflexivity).
  assert (H3 : fails (Sample.reacts 8 "🤔" 0%nat) (length (trace Sample.three_pages))
               = false) by reflexivity.
  assert (H4 : fails (Sample.failing 0) (length (trace Sample.three_pages)) = true)
    by reflexivity.
  repeat (split; [assumption|]).
  pose proof (run_requests_one_page_send (Sample.reacts 8 "🤔" 0%nat) 5
                Sample.session Sample.three_pages H1 H2) as Hr.
  pose proof (run_requests_one_page_send (Sample.failing 0) 5
                Sample.session Sample.three_pages H1 H2) as Hf.
  cbv zeta in Hr, Hf.
  destruct Hr as (Hr1 & _ & _ & _ & _ & Hr6).
  destruct Hf as (_ & _ & _ & _ & Hf5 & _).
  split; [exact Hr1|]. split; [exact (proj1 (Hr6 H3))|].
  split; [exact (proj1 (Hf5 H4)) | exact (proj1 (proj2 (Hf5 H4)))].
Defined.

(** ** Edges of [close] and of the page-jump dialog *)

(** X18. [close()] on a session that has no message on display clears
    [running] and then raises [AttributeError] where it reaches for
    [self.base.delete]; nothing is asked of the transport.  With
    [delete=False] it returns [None], which [await] refuses with
    [TypeError]. *)
Theorem close_without_base env s w :
  base s = None ->
  close env true s w = (Raise AttributeError, set_running false s, w)
  /\ (co <- close env false;; await co) s w =
     (Raise (TypeError "object NoneType can't be used in 'await' expression"),
      set_running false s, w).
Proof.
  intros Hb. unfold close. unfold_m. cbn [base set_running]. by rewrite Hb.
Qed.

Lemma close_without_base_witness :
  base Sample.session = None
  /\ close Sample.quiet true Sample.session Sample.three_pages =
     (Raise AttributeError, set_running false Sample.session, Sample.three_pages).
Proof.
  assert (H : base Sample.session = None) by reflexivity.
  split; [exact H|].
  exact (proj1 (close_without_base Sample.quiet Sample.session Sample.three_pages H)).
Defined.

(** X19. In the page-jump dialog the cleanup is reached only when all
    before it went through: when the reply is a valid page number and the
    edit of the displayed message fails, [ask_for_page] raises
    [HTTPException] with the cursor already on the new page, and neither the
    sleep nor the deletion of the prompt and the reply is requested. *)
Theorem jump_dialog_failed_edit_skips_cleanup env s w b msg k p :
  let n := length (trace w) in
  running s = true ->
  base s = Some b ->
  fails env n = false ->
  wait_scan (message_check env s) (messages env (S n)) = inr msg ->
  Py.int (unicode env) (msg_content msg) = Some k ->
  1 <= k <= len_pages s w ->
  pages_of s w !! Z.to_nat (k - 1) = Some p ->
  fails env (S (S n)) = true ->
  ask_for_page env s w =
  (Raise HTTPException, set_current (k - 1) s,
   mkWorld (lists_rendered s w (k - 1) p)
     (trace w ++ [Send (CText prompt_text); WaitMessage 30;
                  Edit b (rendered s w (k - 1) p)])).
Proof.
  intros n Hrun Hb Hf Hwait Hint Hk Hp Hf2.
  rewrite ask_for_page_eq by done. cbv zeta. fold n. rewrite Hwait, Hint.
  replace (negb (k =? 0) && (k <=? len_pages s w)) with true by lia.
  rewrite extend_extend. cbn [app].
  set (w1 := extend w _).
  assert (Hv : valid_page s w1 (k - 1) = true)
    by (apply valid_page_spec; change (len_pages s w1) with (len_pages s w); lia).
  unfold bind at 1.
  rewrite (show_page_valid env s w1 (k - 1) p Hv Hp). cbv zeta.
  rewrite Hrun, Hb.
  replace (length (trace w1)) with (S (S n))
    by (unfold w1, extend; cbn [trace]; rewrite length_app; cbn; lia).
  rewrite Hf2. unfold w1, extend. cbn [trace lists].
  rewrite <- app_assoc. reflexivity.
Qed.

Lemma jump_dialog_failed_edit_skips_cleanup_witness :
  let s := Sample.shown in
  let w := Sample.shown_world in
  let b := sent_message Sample.session Sample.three_pages "" in
  let env := mkEnv (fun k => (k =? 10)%nat) (fun _ => [])
                   (fun k => if (k =? 9)%nat then [Sample.reply "2"] else [])
                   Sample.ucd in
  running s = true
  /\ base s = Some b
  /\ fails env (length (trace w)) = false
  /\ wait_scan (message_check env s) (messages env (S (length (trace w))))
     = inr (Sample.reply "2")
  /\ Py.int Sample.ucd (msg_content (Sample.reply "2")) = Some 2
  /\ 1 <= 2 <= len_pages s w
  /\ pages_of s w !! Z.to_nat (2 - 1) = Some (Sample.page "B")
  /\ fails env (S (S (length (trace w)))) = true
  /\ (ask_for_page env s w).1.1 = Raise HTTPException
  /\ current (ask_for_page env s w).1.2 = 1.
Proof.
  cbv zeta.
  set (env := mkEnv (fun k => (k =? 10)%nat) (fun _ => [])
                    (fun k => if (k =? 9)%nat then [Sample.reply "2"] else [])
                    Sample.ucd).
  assert (H1 : running Sample.shown = true) by reflexivity.
  assert (H2 : base Sample.shown
               = Some (sent_message Sample.session Sample.three_pages ""))
    by reflexivity.
  assert (H3 : fails env (length (trace Sample.shown_world)) = false) by reflexivity.
  assert (H4 : wait_scan (message_check env Sample.shown)
                 (messages env (S (length (trace Sample.shown_world))))
               = inr (Sample.reply "2")) by reflexivity.
  assert (H5 : Py.int Sample.ucd (msg_content (Sample.reply "2")) = Some 2) by reflexivity.
  assert (H6 : 1 <= 2 <= len_pages Sample.shown Sample.shown_world)
    by (vm_compute; split; discriminate).
  assert (H7 : pages_of Sample.shown Sample.shown_world !! Z.to_nat (2 - 1)
               = Some (Sample.page "B")) by reflexivity.
  assert (H8 : fails env (S (S (length (trace Sample.shown_world)))) = true)
    by reflexivity.
  repeat (split; [assumption|]).
  rewrite (jump_dialog_failed_edit_skips_cleanup env Sample.shown Sample.shown_world
             _ (Sample.reply "2") 2 (Sample.page "B") H1 H2 H3 H4 H5 H6 H7 H8).
  split; reflexivity.
Defined.

(** ** C10 *)

(** An accepted reply that [int] refuses: the [ValueError] is raised after
    the wait, outside every [try], and leaves [ask_for_page] with the prompt
    and the reply undeleted. *)
Lemma ask_for_page_value_error env s w msg :
  fails env (length (trace w)) = false ->
  wait_scan (message_check env s) (messages env (S (length (trace w)))) = inr msg ->
  Py.int (unicode env) (msg_content msg) = None ->
  ask_for_page env s w =
  (Raise ValueError, s, extend w [Send (CText prompt_text); WaitMessage 30]).
Proof.
  intros Hf Hwait Hint. rewrite ask_for_page_eq by done. cbv zeta.
  rewrite Hwait, Hint. by rewrite extend_extend.
Qed.

(** C10 (the code does otherwise).  [add_page(doc)] appends [doc] to the
    page list when it is an embed and touches nothing else, and for any
    other object raises [TypeError] with session and world as they were.
    But that is not the only failure of validation that reaches the caller:
    [message_check] lets the reply "²" through ([isdigit] holds of it),
    [int] refuses it, and the [ValueError] leaves [ask_for_page] and [run],
    for every positive fuel. *)
Theorem value_error_leaves_run doc s w fuel :
  match doc with
  | VEmbed e =>
      exists w', add_page doc s w = (Ok tt, s, w')
                 /\ pages_of s w' = pages_of s w ++ [e]
                 /\ trace w' = trace w
  | _ => add_page doc s w = (Raise (TypeError "Page must be an Embed object."), s, w)
  end
  /\ message_check (Sample.jumps_with "²") Sample.shown
       (mkMessage 50%nat 7%nat 3%nat "²") = inr true
  /\ Py.int Sample.ucd "²" = None
  /\ run (Sample.jumps_with "²") (S fuel) Sample.session Sample.three_pages =
     (Raise ValueError, Sample.shown,
      extend Sample.shown_world
        [WaitReaction 60;
         RemoveReaction (sent_message Sample.session Sample.three_pages "") "🔢" 7%nat;
         Send (CText prompt_text);
         WaitMessage 30]).
Proof.
  split; [|split; [reflexivity|]; split; [reflexivity|]].
  - destruct doc; try reflexivity.
    eexists. split; [reflexivity|]. split; [|reflexivity].
    unfold pages_of at 1. cbn [lists]. by rewrite lookup_total_insert_eq.
  - assert (Hshow : show_page (Sample.jumps_with "²") 0 Sample.session
                      Sample.three_pages
                    = (Ok tt, Sample.shown, Sample.shown_world))
      by (vm_compute; reflexivity).
    unfold run. unfold bind at 1. cbn [get_self].
    change (negb (running Sample.session)) with true. cbv iota.
    unfold bind at 1. rewrite Hshow.
    rewrite (run_loop_accepted (Sample.jumps_with "²") fuel Sample.shown
               Sample.shown_world (mkReaction "🔢" 0%nat) 7%nat eq_refl eq_refl).
    set (b := sent_message Sample.session Sample.three_pages "").
    set (w2 := extend (extend Sample.shown_world [WaitReaction 60])
                 [RemoveReaction b "🔢" 7%nat]).
    assert (Hask : ask_for_page (Sample.jumps_with "²") Sample.shown w2 =
                   (Raise ValueError, Sample.shown,
                    extend w2 [Send (CText prompt_text); WaitMessage 30])).
    { apply (ask_for_page_value_error _ _ _ (mkMessage 50%nat 7%nat 3%nat "²"));
        reflexivity. }
    change ((_ <- attempt (b0 <- get_base;;
                           request (Sample.jumps_with "²")
                             (RemoveReaction b0 (reaction_emoji (mkReaction "🔢" 0%nat))
                                7%nat));;
             s' <- get_self;;
             co <- call (Sample.jumps_with "²")
                     (dict_get (reaction_map s') (reaction_emoji (mkReaction "🔢" 0%nat)));;
             await co;;; run_loop (Sample.jumps_with "²") fuel)
              Sample.shown (extend Sample.shown_world [WaitReaction (timeout Sample.shown)]))
      with (bind (ask_for_page (Sample.jumps_with "²"))
                 (fun _ => run_loop (Sample.jumps_with "²") fuel) Sample.shown w2).
    unfold bind. rewrite Hask. unfold w2. by rewrite !extend_extend.
Qed.
